(** * EscapeVelocityGameFHE: the encrypted-state game engine

    A shallow embedding of the contract [EscapeVelocityGameFHE]
    (contracts/escapeVelocityGameFHE.sol) and the properties of its batch
    lifecycle, submission protocol and decryption-oracle protocol.

    Storage mappings are finite maps read with the Solidity default
    value; [uint256] values are integers with Solidity 0.8 checked
    arithmetic (an overflow reverts); a call runs in a state-and-error
    monad that records the storage at the point of a revert, and the
    transaction layer [call] discards that storage, as the EVM does. *)

From stdpp Require Import gmap list.

Open Scope Z_scope.

(** ** Value types *)

Abbreviation address := Z (only parsing).
Abbreviation uint256 := Z (only parsing).
Abbreviation bytes32 := Z (only parsing).
Abbreviation bytes := (list Byte.byte) (only parsing).
(** [euint32] and [ebool] are user-defined value types over [bytes32]: a
    storage slot never written holds the zero handle. *)
Abbreviation euint32 := Z (only parsing).
Abbreviation ebool := Z (only parsing).

Definition UINT256_MAX : Z := 2 ^ 256 - 1.

(** ** The FHE library, an external collaborator

    [FHE.sol] is imported, not part of the contract: its operations are
    the fields of an interface, and the library's own storage (request
    counter, saved handles) is an abstract [EngineState]. *)
Module FHE.
Class Engine := {
  EngineState : Type;
  asEuint32 : uint256 -> euint32;
  add : euint32 -> euint32 -> euint32;
  mul : euint32 -> euint32 -> euint32;
  ge : euint32 -> euint32 -> ebool;
  isInitialized : euint32 -> bool;
  toBytes32 : euint32 -> bytes32;
  requestDecryption : EngineState -> list bytes32 -> uint256 * EngineState;
  checkSignatures : EngineState -> uint256 -> bytes -> bytes -> bool
}.
End FHE.

(** The EVM side of the host: the hash builtin and [address(this)]. *)
Class Host := {
  keccak256 : list bytes32 -> bytes32;
  this : address
}.

(** The per-call context supplied by the execution environment. *)
Record Env := { msg_sender : address; block_timestamp : uint256 }.

Inductive Error :=
| NotOwner | NotProvider | Paused | CooldownActive | BatchNotOpen
| InvalidParameters | ReplayAttempt | StateMismatch | InvalidProof
| NotInitialized
| Panic      (* checked arithmetic overflow, Panic(0x11) *)
| AbiRevert. (* slice out of bounds or malformed ABI word *)

Inductive Event :=
| OwnershipTransferred (oldOwner newOwner : address)
| ProviderAdded (provider : address)
| ProviderRemoved (provider : address)
| ContractPaused
| ContractUnpaused
| CooldownSecondsUpdated (oldCooldown newCooldown : uint256)
| BatchOpened (batchId : uint256)
| BatchClosed (batchId : uint256)
| WealthSubmitted (provider : address) (playerId : uint256) (encryptedWealth : euint32)
| DecryptionRequested (requestId batchId : uint256)
| DecryptionCompleted (requestId batchId playerWealth escapeVelocityThreshold : uint256)
                      (playerEscaped : bool).

Record DecryptionContext := {
  batchId : uint256;
  stateHash : bytes32;
  processed : bool
}.

Definition DecryptionContext_zero : DecryptionContext :=
  {| batchId := 0; stateHash := 0; processed := false |}.

(** Reading [m[k]] of a Solidity mapping: the default where nothing was
    written. *)
Definition mapping_get {V : Type} (d : V) (m : gmap Z V) (k : Z) : V :=
  default d (m !! k).

(** ** ABI helpers used by the callback *)

(** [b[from:to]]: reverts when [to] exceeds the length. *)
Definition slice (b : bytes) (from to : nat) : option bytes :=
  if (to <=? length b)%nat then Some (take (to - from) (drop from b)) else None.

Definition be_word (w : bytes) : Z :=
  fold_left (fun acc x => acc * 256 + Z.of_N (Byte.to_N x)) w 0.

Definition abi_decode_uint256 (w : bytes) : option uint256 := Some (be_word w).

(** A bool is the word 0 or 1; any other word fails the decoder. *)
Definition abi_decode_bool (w : bytes) : option bool :=
  if be_word w =? 0 then Some false
  else if be_word w =? 1 then Some true
  else None.

(** [abi.encode(cts, addr)] for a dynamic [bytes32[]] and an address, as
    32-byte words: head (offset of the array, address), then the array
    (length, elements). *)
Definition abi_encode (cts : list bytes32) (a : address) : list bytes32 :=
  [64; a; Z.of_nat (length cts)] ++ cts.

Section Contract.
Context {Eng : FHE.Engine} {H : Host}.

Record State := {
  owner : address;
  providers : gmap Z bool;
  paused : bool;
  cooldownSeconds : uint256;
  lastSubmissionTime : gmap Z Z;
  lastDecryptionRequestTime : gmap Z Z;
  decryptionContexts : gmap Z DecryptionContext;
  currentBatchId : uint256;
  batchOpen : bool;
  encryptedPlayerWealth : gmap Z Z;
  (* declared as a mapping, but every use in the contract reads and
     writes it as one euint32 slot *)
  encryptedEscapeVelocityThreshold : euint32;
  encryptedBaseWealth : euint32;
  encryptedBaseThreshold : euint32;
  encryptedThresholdGrowthRate : euint32;
  engine : FHE.EngineState
}.

(** *** Storage writes *)

Definition set_owner (v : address) (s : State) : State :=
  {| owner := v; providers := providers s; paused := paused s;
     cooldownSeconds := cooldownSeconds s;
     lastSubmissionTime := lastSubmissionTime s;
     lastDecryptionRequestTime := lastDecryptionRequestTime s;
     decryptionContexts := decryptionContexts s;
     currentBatchId := currentBatchId s; batchOpen := batchOpen s;
     encryptedPlayerWealth := encryptedPlayerWealth s;
     encryptedEscapeVelocityThreshold := encryptedEscapeVelocityThreshold s;
     encryptedBaseWealth := encryptedBaseWealth s;
     encryptedBaseThreshold := encryptedBaseThreshold s;
     encryptedThresholdGrowthRate := encryptedThresholdGrowthRate s;
     engine := engine s |}.

Definition set_providers (v : gmap Z bool) (s : State) : State :=
  {| owner := owner s; providers := v; paused := paused s;
     cooldownSeconds := cooldownSeconds s;
     lastSubmissionTime := lastSubmissionTime s;
     lastDecryptionRequestTime := lastDecryptionRequestTime s;
     decryptionContexts := decryptionContexts s;
     currentBatchId := currentBatchId s; batchOpen := batchOpen s;
     encryptedPlayerWealth := encryptedPlayerWealth s;
     encryptedEscapeVelocityThreshold := encryptedEscapeVelocityThreshold s;
     encryptedBaseWealth := encryptedBaseWealth s;
     encryptedBaseThreshold := encryptedBaseThreshold s;
     encryptedThresholdGrowthRate := encryptedThresholdGrowthRate s;
     engine := engine s |}.

Definition set_paused (v : bool) (s : State) : State :=
  {| owner := owner s; providers := providers s; paused := v;
     cooldownSeconds := cooldownSeconds s;
     lastSubmissionTime := lastSubmissionTime s;
     lastDecryptionRequestTime := lastDecryptionRequestTime s;
     decryptionContexts := decryptionContexts s;
     currentBatchId := currentBatchId s; batchOpen := batchOpen s;
     encryptedPlayerWealth := encryptedPlayerWealth s;
     encryptedEscapeVelocityThreshold := encryptedEscapeVelocityThreshold s;
     encryptedBaseWealth := encryptedBaseWealth s;
     encryptedBaseThreshold := encryptedBaseThreshold s;
     encryptedThresholdGrowthRate := encryptedThresholdGrowthRate s;
     engine := engine s |}.

Definition set_cooldownSeconds (v : uint256) (s : State) : State :=
  {| owner := owner s; providers := providers s; paused := paused s;
     cooldownSeconds := v;
     lastSubmissionTime := lastSubmissionTime s;
     lastDecryptionRequestTime := lastDecryptionRequestTime s;
     decryptionContexts := decryptionContexts s;
     currentBatchId := currentBatchId s; batchOpen := batchOpen s;
     encryptedPlayerWealth := encryptedPlayerWealth s;
     encryptedEscapeVelocityThreshold := encryptedEscapeVelocityThreshold s;
     encryptedBaseWealth := encryptedBaseWealth s;
     encryptedBaseThreshold := encryptedBaseThreshold s;
     encryptedThresholdGrowthRate := encryptedThresholdGrowthRate s;
     engine := engine s |}.

Definition set_lastSubmissionTime (v : gmap Z Z) (s : State) : State :=
  {| owner := owner s; providers := providers s; paused := paused s;
     cooldownSeconds := cooldownSeconds s;
     lastSubmissionTime := v;
     lastDecryptionRequestTime := lastDecryptionRequestTime s;
     decryptionContexts := decryptionContexts s;
     currentBatchId := currentBatchId s; batchOpen := batchOpen s;
     encryptedPlayerWealth := encryptedPlayerWealth s;
     encryptedEscapeVelocityThreshold := encryptedEscapeVelocityThreshold s;
     encryptedBaseWealth := encryptedBaseWealth s;
     encryptedBaseThreshold := encryptedBaseThreshold s;
     encryptedThresholdGrowthRate := encryptedThresholdGrowthRate s;
     engine := engine s |}.

Definition set_lastDecryptionRequestTime (v : gmap Z Z) (s : State) : State :=
  {| owner := owner s; providers := providers s; paused := paused s;
     cooldownSeconds := cooldownSeconds s;
     lastSubmissionTime := lastSubmissionTime s;
     lastDecryptionRequestTime := v;
     decryptionContexts := decryptionContexts s;
     currentBatchId := currentBatchId s; batchOpen := batchOpen s;
     encryptedPlayerWealth := encryptedPlayerWealth s;
     encryptedEscapeVelocityThreshold := encryptedEscapeVelocityThreshold s;
     encryptedBaseWealth := encryptedBaseWealth s;
     encryptedBaseThreshold := encryptedBaseThreshold s;
     encryptedThresholdGrowthRate := encryptedThresholdGrowthRate s;
     engine := engine s |}.

Definition set_decryptionContexts (v : gmap Z DecryptionContext) (s : State) : State :=
  {| owner := owner s; providers := providers s; paused := paused s;
     cooldownSeconds := cooldownSeconds s;
     lastSubmissionTime := lastSubmissionTime s;
     lastDecryptionRequestTime := lastDecryptionRequestTime s;
     decryptionContexts := v;
     currentBatchId := currentBatchId s; batchOpen := batchOpen s;
     encryptedPlayerWealth := encryptedPlayerWealth s;
     encryptedEscapeVelocityThreshold := encryptedEscapeVelocityThreshold s;
     encryptedBaseWealth := encryptedBaseWealth s;
     encryptedBaseThreshold := encryptedBaseThreshold s;
     encryptedThresholdGrowthRate := encryptedThresholdGrowthRate s;
     engine := engine s |}.

Definition set_currentBatchId (v : uint256) (s : State) : State :=
  {| owner := owner s; providers := providers s; paused := paused s;
     cooldownSeconds := cooldownSeconds s;
     lastSubmissionTime := lastSubmissionTime s;
     lastDecryptionRequestTime := lastDecryptionRequestTime s;
     decryptionContexts := decryptionContexts s;
     currentBatchId := v; batchOpen := batchOpen s;
     encryptedPlayerWealth := encryptedPlayerWealth s;
     encryptedEscapeVelocityThreshold := encryptedEscapeVelocityThreshold s;
     encryptedBaseWealth := encryptedBaseWealth s;
     encryptedBaseThreshold := encryptedBaseThreshold s;
     encryptedThresholdGrowthRate := encryptedThresholdGrowthRate s;
     engine := engine s |}.

Definition set_batchOpen (v : bool) (s : State) : State :=
  {| owner := owner s; providers := providers s; paused := paused s;
     cooldownSeconds := cooldownSeconds s;
     lastSubmissionTime := lastSubmissionTime s;
     lastDecryptionRequestTime := lastDecryptionRequestTime s;
     decryptionContexts := decryptionContexts s;
     currentBatchId := currentBatchId s; batchOpen := v;
     encryptedPlayerWealth := encryptedPlayerWealth s;
     encryptedEscapeVelocityThreshold := encryptedEscapeVelocityThreshold s;
     encryptedBaseWealth := encryptedBaseWealth s;
     encryptedBaseThreshold := encryptedBaseThreshold s;
     encryptedThresholdGrowthRate := encryptedThresholdGrowthRate s;
     engine := engine s |}.

Definition set_encryptedPlayerWealth (v : gmap Z Z) (s : State) : State :=
  {| owner := owner s; providers := providers s; paused := paused s;
     cooldownSeconds := cooldownSeconds s;
     lastSubmissionTime := lastSubmissionTime s;
     lastDecryptionRequestTime := lastDecryptionRequestTime s;
     decryptionContexts := decryptionContexts s;
     currentBatchId := currentBatchId s; batchOpen := batchOpen s;
     encryptedPlayerWealth := v;
     encryptedEscapeVelocityThreshold := encryptedEscapeVelocityThreshold s;
     encryptedBaseWealth := encryptedBaseWealth s;
     encryptedBaseThreshold := encryptedBaseThreshold s;
     encryptedThresholdGrowthRate := encryptedThresholdGrowthRate s;
     engine := engine s |}.

Definition set_encryptedEscapeVelocityThreshold (v : euint32) (s : State) : State :=
  {| owner := owner s; providers := providers s; paused := paused s;
     cooldownSeconds := cooldownSeconds s;
     lastSubmissionTime := lastSubmissionTime s;
     lastDecryptionRequestTime := lastDecryptionRequestTime s;
     decryptionContexts := decryptionContexts s;
     currentBatchId := currentBatchId s; batchOpen := batchOpen s;
     encryptedPlayerWealth := encryptedPlayerWealth s;
     encryptedEscapeVelocityThreshold := v;
     encryptedBaseWealth := encryptedBaseWealth s;
     encryptedBaseThreshold := encryptedBaseThreshold s;
     encryptedThresholdGrowthRate := encryptedThresholdGrowthRate s;
     engine := engine s |}.

Definition set_encryptedBaseWealth (v : euint32) (s : State) : State :=
  {| owner := owner s; providers := providers s; paused := paused s;
     cooldownSeconds := cooldownSeconds s;
     lastSubmissionTime := lastSubmissionTime s;
     lastDecryptionRequestTime := lastDecryptionRequestTime s;
     decryptionContexts := decryptionContexts s;
     currentBatchId := currentBatchId s; batchOpen := batchOpen s;
     encryptedPlayerWealth := encryptedPlayerWealth s;
     encryptedEscapeVelocityThreshold := encryptedEscapeVelocityThreshold s;
     encryptedBaseWealth := v;
     encryptedBaseThreshold := encryptedBaseThreshold s;
     encryptedThresholdGrowthRate := encryptedThresholdGrowthRate s;
     engine := engine s |}.

Definition set_encryptedBaseThreshold (v : euint32) (s : State) : State :=
  {| owner := owner s; providers := providers s; paused := paused s;
     cooldownSeconds := cooldownSeconds s;
     lastSubmissionTime := lastSubmissionTime s;
     lastDecryptionRequestTime := lastDecryptionRequestTime s;
     decryptionContexts := decryptionContexts s;
     currentBatchId := currentBatchId s; batchOpen := batchOpen s;
     encryptedPlayerWealth := encryptedPlayerWealth s;
     encryptedEscapeVelocityThreshold := encryptedEscapeVelocityThreshold s;
     encryptedBaseWealth := encryptedBaseWealth s;
     encryptedBaseThreshold := v;
     encryptedThresholdGrowthRate := encryptedThresholdGrowthRate s;
     engine := engine s |}.

Definition set_encryptedThresholdGrowthRate (v : euint32) (s : State) : State :=
  {| owner := owner s; providers := providers s; paused := paused s;
     cooldownSeconds := cooldownSeconds s;
     lastSubmissionTime := lastSubmissionTime s;
     lastDecryptionRequestTime := lastDecryptionRequestTime s;
     decryptionContexts := decryptionContexts s;
     currentBatchId := currentBatchId s; batchOpen := batchOpen s;
     encryptedPlayerWealth := encryptedPlayerWealth s;
     encryptedEscapeVelocityThreshold := encryptedEscapeVelocityThreshold s;
     encryptedBaseWealth := encryptedBaseWealth s;
     encryptedBaseThreshold := encryptedBaseThreshold s;
     encryptedThresholdGrowthRate := v;
     engine := engine s |}.

Definition set_engine (v : FHE.EngineState) (s : State) : State :=
  {| owner := owner s; providers := providers s; paused := paused s;
     cooldownSeconds := cooldownSeconds s;
     lastSubmissionTime := lastSubmissionTime s;
     lastDecryptionRequestTime := lastDecryptionRequestTime s;
     decryptionContexts := decryptionContexts s;
     currentBatchId := currentBatchId s; batchOpen := batchOpen s;
     encryptedPlayerWealth := encryptedPlayerWealth s;
     encryptedEscapeVelocityThreshold := encryptedEscapeVelocityThreshold s;
     encryptedBaseWealth := encryptedBaseWealth s;
     encryptedBaseThreshold := encryptedBaseThreshold s;
     encryptedThresholdGrowthRate := encryptedThresholdGrowthRate s;
     engine := v |}.

(** *** The execution monad

    [Return a s log]: the body finished with storage [s] and emitted
    [log]. [Revert e s]: the body raised [e]; [s] is the storage as it
    stood at that point, which the transaction then throws away. *)
Inductive Result (A : Type) :=
| Return (a : A) (s : State) (log : list Event)
| Revert (e : Error) (s : State).
Arguments Return {A}.
Arguments Revert {A}.

Definition M (A : Type) := State -> Result A.

Definition ret {A} (a : A) : M A := fun s => Return a s [].

Definition bind {A B} (m : M A) (f : A -> M B) : M B :=
  fun s =>
    match m s with
    | Return a s1 l1 =>
        match f a s1 with
        | Return b s2 l2 => Return b s2 (l1 ++ l2)
        | Revert e s2 => Revert e s2
        end
    | Revert e s1 => Revert e s1
    end.

Definition revert {A} (e : Error) : M A := fun s => Revert e s.
Definition sload {A} (f : State -> A) : M A := fun s => Return (f s) s [].
Definition sstore (f : State -> State) : M unit := fun s => Return tt (f s) [].
Definition emit (ev : Event) : M unit := fun s => Return tt s [ev].
Definition require_not (b : bool) (e : Error) : M unit :=
  if b then revert e else ret tt.
Definition from_option {A} (o : option A) (e : Error) : M A :=
  match o with Some a => ret a | None => revert e end.

(** Solidity 0.8 addition on [uint256]. *)
Definition checked_add (a b : uint256) : M uint256 :=
  if a + b <=? UINT256_MAX then ret (a + b) else revert Panic.

Notation "x <- m ;; k" := (bind m (fun x => k))
  (at level 100, m at next level, right associativity).
Notation "m ;; k" := (bind m (fun _ => k))
  (at level 100, right associativity).

(** *** Modifiers *)

Definition onlyOwner (env : Env) : M unit :=
  o <- sload owner ;;
  require_not (negb (msg_sender env =? o)) NotOwner.

Definition onlyProvider (env : Env) : M unit :=
  p <- sload (fun s => mapping_get false (providers s) (msg_sender env)) ;;
  require_not (negb p) NotProvider.

Definition whenNotPaused : M unit :=
  p <- sload paused ;;
  require_not p Paused.

Definition checkSubmissionCooldown (env : Env) (_address : address) : M unit :=
  last <- sload (fun s => mapping_get 0 (lastSubmissionTime s) _address) ;;
  cd <- sload cooldownSeconds ;;
  limit <- checked_add last cd ;;
  require_not (block_timestamp env <? limit) CooldownActive.

Definition checkDecryptionCooldown (env : Env) (_address : address) : M unit :=
  last <- sload (fun s => mapping_get 0 (lastDecryptionRequestTime s) _address) ;;
  cd <- sload cooldownSeconds ;;
  limit <- checked_add last cd ;;
  require_not (block_timestamp env <? limit) CooldownActive.

(** *** Internal functions *)

Definition _hashCiphertexts (cts : list bytes32) : bytes32 :=
  keccak256 (abi_encode cts this).

Definition _requireInitialized (value : euint32) : M unit :=
  require_not (negb (FHE.isInitialized value)) NotInitialized.

Definition _calculateInitialThreshold : M euint32 :=
  base <- sload encryptedBaseThreshold ;;
  _requireInitialized base ;;
  rate <- sload encryptedThresholdGrowthRate ;;
  _requireInitialized rate ;;
  id <- sload currentBatchId ;;
  ret (FHE.add base (FHE.mul rate (FHE.asEuint32 id))).

(** The three ciphertexts sent for decryption, in their fixed order. *)
Definition snapshot (playerWealth currentThreshold : euint32) : list bytes32 :=
  [FHE.toBytes32 playerWealth; FHE.toBytes32 currentThreshold;
   FHE.toBytes32 (FHE.ge playerWealth currentThreshold)].

(** *** Deployment *)

Definition zero_storage (e : FHE.EngineState) : State :=
  {| owner := 0; providers := ∅; paused := false; cooldownSeconds := 0;
     lastSubmissionTime := ∅; lastDecryptionRequestTime := ∅;
     decryptionContexts := ∅; currentBatchId := 0; batchOpen := false;
     encryptedPlayerWealth := ∅; encryptedEscapeVelocityThreshold := 0;
     encryptedBaseWealth := 0; encryptedBaseThreshold := 0;
     encryptedThresholdGrowthRate := 0; engine := e |}.

Definition constructor (env : Env) : M unit :=
  sstore (set_owner (msg_sender env)) ;;
  ps <- sload providers ;;
  sstore (set_providers (<[msg_sender env := true]> ps)) ;;
  sstore (set_paused false) ;;
  sstore (set_cooldownSeconds 30) ;;
  sstore (set_currentBatchId 0) ;;
  sstore (set_batchOpen false) ;;
  emit (ProviderAdded (msg_sender env)).

(** *** External functions *)

Definition transferOwnership (env : Env) (newOwner : address) : M unit :=
  onlyOwner env ;;
  oldOwner <- sload owner ;;
  sstore (set_owner newOwner) ;;
  emit (OwnershipTransferred oldOwner newOwner).

Definition addProvider (env : Env) (provider : address) : M unit :=
  onlyOwner env ;;
  ps <- sload providers ;;
  sstore (set_providers (<[provider := true]> ps)) ;;
  emit (ProviderAdded provider).

Definition removeProvider (env : Env) (provider : address) : M unit :=
  onlyOwner env ;;
  ps <- sload providers ;;
  sstore (set_providers (<[provider := false]> ps)) ;;
  emit (ProviderRemoved provider).

Definition pause (env : Env) : M unit :=
  onlyOwner env ;;
  whenNotPaused ;;
  sstore (set_paused true) ;;
  emit ContractPaused.

Definition unpause (env : Env) : M unit :=
  onlyOwner env ;;
  sstore (set_paused false) ;;
  emit ContractUnpaused.

Definition setCooldownSeconds (env : Env) (newCooldownSeconds : uint256) : M unit :=
  onlyOwner env ;;
  require_not (newCooldownSeconds =? 0) InvalidParameters ;;
  oldCooldown <- sload cooldownSeconds ;;
  sstore (set_cooldownSeconds newCooldownSeconds) ;;
  emit (CooldownSecondsUpdated oldCooldown newCooldownSeconds).

Definition openBatch (env : Env) : M unit :=
  onlyOwner env ;;
  whenNotPaused ;;
  isOpen <- sload batchOpen ;;
  (if isOpen
   then id <- sload currentBatchId ;;
        next <- checked_add id 1 ;;
        sstore (set_currentBatchId next)
   else ret tt) ;;
  sstore (set_batchOpen true) ;;
  sstore (set_encryptedBaseWealth (FHE.asEuint32 100)) ;;
  sstore (set_encryptedBaseThreshold (FHE.asEuint32 1000)) ;;
  sstore (set_encryptedThresholdGrowthRate (FHE.asEuint32 50)) ;;
  threshold <- _calculateInitialThreshold ;;
  sstore (set_encryptedEscapeVelocityThreshold threshold) ;;
  id <- sload currentBatchId ;;
  emit (BatchOpened id).

Definition closeBatch (env : Env) : M unit :=
  onlyOwner env ;;
  whenNotPaused ;;
  isOpen <- sload batchOpen ;;
  require_not (negb isOpen) BatchNotOpen ;;
  sstore (set_batchOpen false) ;;
  id <- sload currentBatchId ;;
  emit (BatchClosed id).

Definition submitPlayerWealth (env : Env) (playerId : uint256)
    (encryptedWealth : euint32) : M unit :=
  onlyProvider env ;;
  whenNotPaused ;;
  checkSubmissionCooldown env (msg_sender env) ;;
  isOpen <- sload batchOpen ;;
  require_not (negb isOpen) BatchNotOpen ;;
  _requireInitialized encryptedWealth ;;
  ws <- sload encryptedPlayerWealth ;;
  sstore (set_encryptedPlayerWealth (<[playerId := encryptedWealth]> ws)) ;;
  ts <- sload lastSubmissionTime ;;
  sstore (set_lastSubmissionTime (<[msg_sender env := block_timestamp env]> ts)) ;;
  emit (WealthSubmitted (msg_sender env) playerId encryptedWealth).

(** [FHE.requestDecryption(cts, selector)]: the library allots the
    request id and updates its own storage. *)
Definition fhe_requestDecryption (cts : list bytes32) : M uint256 :=
  fun s =>
    let '(requestId, e) := FHE.requestDecryption (engine s) cts in
    Return requestId (set_engine e s) [].

Definition requestEscapeCheck (env : Env) (playerId : uint256) : M unit :=
  whenNotPaused ;;
  checkDecryptionCooldown env (msg_sender env) ;;
  isOpen <- sload batchOpen ;;
  require_not (negb isOpen) BatchNotOpen ;;
  w <- sload (fun s => mapping_get 0 (encryptedPlayerWealth s) playerId) ;;
  _requireInitialized w ;;
  t <- sload encryptedEscapeVelocityThreshold ;;
  _requireInitialized t ;;
  playerWealth <- sload (fun s => mapping_get 0 (encryptedPlayerWealth s) playerId) ;;
  currentThreshold <- sload encryptedEscapeVelocityThreshold ;;
  let cts := snapshot playerWealth currentThreshold in
  let stateHash := _hashCiphertexts cts in
  requestId <- fhe_requestDecryption cts ;;
  id <- sload currentBatchId ;;
  ctxs <- sload decryptionContexts ;;
  sstore (set_decryptionContexts
            (<[requestId := {| batchId := id; stateHash := stateHash;
                               processed := false |}]> ctxs)) ;;
  ts <- sload lastDecryptionRequestTime ;;
  sstore (set_lastDecryptionRequestTime
            (<[msg_sender env := block_timestamp env]> ts)) ;;
  id' <- sload currentBatchId ;;
  emit (DecryptionRequested requestId id').

Definition myCallback (env : Env) (requestId : uint256)
    (cleartexts proof : bytes) : M unit :=
  context <- sload (fun s => mapping_get DecryptionContext_zero
                               (decryptionContexts s) requestId) ;;
  require_not (processed context) ReplayAttempt ;;
  (* indexed by the context's batch id: "Placeholder, actual player ID
     would be needed" *)
  playerWealth <- sload (fun s => mapping_get 0 (encryptedPlayerWealth s)
                                    (batchId context)) ;;
  currentThreshold <- sload encryptedEscapeVelocityThreshold ;;
  let currentCts := snapshot playerWealth currentThreshold in
  let currentStateHash := _hashCiphertexts currentCts in
  require_not (negb (currentStateHash =? stateHash context)) StateMismatch ;;
  e <- sload engine ;;
  require_not (negb (FHE.checkSignatures e requestId cleartexts proof))
              InvalidProof ;;
  w0 <- from_option (slice cleartexts 0 32) AbiRevert ;;
  wealth <- from_option (abi_decode_uint256 w0) AbiRevert ;;
  w1 <- from_option (slice cleartexts 32 64) AbiRevert ;;
  threshold <- from_option (abi_decode_uint256 w1) AbiRevert ;;
  w2 <- from_option (slice cleartexts 64 96) AbiRevert ;;
  escaped <- from_option (abi_decode_bool w2) AbiRevert ;;
  let context' := {| batchId := batchId context; stateHash := stateHash context;
                     processed := true |} in
  ctxs <- sload decryptionContexts ;;
  sstore (set_decryptionContexts (<[requestId := context']> ctxs)) ;;
  emit (DecryptionCompleted requestId (batchId context') wealth threshold escaped).

(** *** Transactions *)

Inductive Call :=
| TransferOwnership (newOwner : address)
| AddProvider (provider : address)
| RemoveProvider (provider : address)
| Pause
| Unpause
| SetCooldownSeconds (newCooldownSeconds : uint256)
| OpenBatch
| CloseBatch
| SubmitPlayerWealth (playerId : uint256) (encryptedWealth : euint32)
| RequestEscapeCheck (playerId : uint256)
| MyCallback (requestId : uint256) (cleartexts proof : bytes).

Definition body (c : Call) (env : Env) : M unit :=
  match c with
  | TransferOwnership newOwner => transferOwnership env newOwner
  | AddProvider provider => addProvider env provider
  | RemoveProvider provider => removeProvider env provider
  | Pause => pause env
  | Unpause => unpause env
  | SetCooldownSeconds n => setCooldownSeconds env n
  | OpenBatch => openBatch env
  | CloseBatch => closeBatch env
  | SubmitPlayerWealth playerId h => submitPlayerWealth env playerId h
  | RequestEscapeCheck playerId => requestEscapeCheck env playerId
  | MyCallback requestId cleartexts proof => myCallback env requestId cleartexts proof
  end.

Inductive Outcome :=
| Succeeded (log : list Event)
| Failed (e : Error).

(** A transaction: a revert restores the storage of before the call. *)
Definition call (c : Call) (env : Env) (s : State) : Outcome * State :=
  match body c env s with
  | Return _ s' log => (Succeeded log, s')
  | Revert e _ => (Failed e, s)
  end.

Definition deploy (env : Env) (e : FHE.EngineState) : Outcome * State :=
  match constructor env (zero_storage e) with
  | Return _ s' log => (Succeeded log, s')
  | Revert err _ => (Failed err, zero_storage e)
  end.

(** A sequence of transactions, each with its own caller and time;
    the storage after the last one. *)
Fixpoint run (txs : list (Call * Env)) (s : State) : State :=
  match txs with
  | [] => s
  | (c, env) :: rest => run rest (snd (call c env s))
  end.
End Contract.

Arguments Return {Eng A}.
Arguments Revert {Eng A}.

(** ** Views of the storage used in the statements *)
Section Views.
Context {Eng : FHE.Engine} {H : Host}.

(** [decryptionContexts[requestId]] *)
Definition context_of (s : State) (requestId : uint256) : DecryptionContext :=
  mapping_get DecryptionContext_zero (decryptionContexts s) requestId.

(** [encryptedPlayerWealth[playerId]] *)
Definition wealth_of (s : State) (playerId : uint256) : euint32 :=
  mapping_get 0 (encryptedPlayerWealth s) playerId.

(** The snapshot [requestEscapeCheck playerId] takes in storage [s]. *)
Definition request_snapshot (s : State) (playerId : uint256) : list bytes32 :=
  snapshot (wealth_of s playerId) (encryptedEscapeVelocityThreshold s).

(** The snapshot [myCallback requestId] recomputes in storage [s]
    ([currentCts] of the source). *)
Definition currentCts (s : State) (requestId : uint256) : list bytes32 :=
  snapshot (wealth_of s (batchId (context_of s requestId)))
           (encryptedEscapeVelocityThreshold s).

(** [currentStateHash] of the source. *)
Definition currentStateHash (s : State) (requestId : uint256) : bytes32 :=
  _hashCiphertexts (currentCts s requestId).

(** The functions that carry the [whenNotPaused] modifier. *)
Definition pause_gated (c : Call) : bool :=
  match c with
  | Pause | OpenBatch | CloseBatch
  | SubmitPlayerWealth _ _ | RequestEscapeCheck _ => true
  | TransferOwnership _ | AddProvider _ | RemoveProvider _ | Unpause
  | SetCooldownSeconds _ | MyCallback _ _ _ => false
  end.

(** Along the transactions [txs] run from [s], the library never
    allots [requestId] to a new decryption request. *)
Fixpoint never_reallotted (requestId : uint256) (txs : list (Call * Env))
    (s : State) : Prop :=
  match txs with
  | [] => True
  | (c, env) :: rest =>
      (forall cts, fst (FHE.requestDecryption (engine s) cts) ≠ requestId)
      /\ never_reallotted requestId rest (snd (call c env s))
  end.

(** The storage the callback writes on success: the context of
    [requestId] marked processed, nothing else. *)
Definition mark_processed (requestId : uint256) (s : State) : State :=
  set_decryptionContexts
    (<[requestId := {| batchId := batchId (context_of s requestId);
                       stateHash := stateHash (context_of s requestId);
                       processed := true |}]> (decryptionContexts s)) s.
(** The conditions under which [submitPlayerWealth] refuses a
    submission of handle [h] by [msg_sender env] at [block_timestamp env]. *)
Definition submission_refused (env : Env) (s : State) (h : euint32) : Prop :=
  batchOpen s = false
  \/ mapping_get false (providers s) (msg_sender env) = false
  \/ paused s = true
  \/ block_timestamp env <
       mapping_get 0 (lastSubmissionTime s) (msg_sender env) + cooldownSeconds s
  \/ FHE.isInitialized h = false.

(** The storage after an accepted submission. *)
Definition submitted (env : Env) (playerId : uint256) (h : euint32)
    (s : State) : State :=
  set_lastSubmissionTime
    (<[msg_sender env := block_timestamp env]> (lastSubmissionTime s))
    (set_encryptedPlayerWealth
       (<[playerId := h]> (encryptedPlayerWealth s)) s).

(** The three [abi.decode] steps of the callback, in their order: the
    decoded wealth, threshold and escaped flag, or nothing when a slice
    is out of bounds or the flag is not a bool. *)
Definition decode_cleartexts (cleartexts : bytes) : option (uint256 * uint256 * bool) :=
  w0 ← slice cleartexts 0 32;
  wealth ← abi_decode_uint256 w0;
  w1 ← slice cleartexts 32 64;
  threshold ← abi_decode_uint256 w1;
  w2 ← slice cleartexts 64 96;
  escaped ← abi_decode_bool w2;
  Some (wealth, threshold, escaped).

(** Everything of the storage that [myCallback requestId] reads. *)
Definition callback_inputs (s : State) (requestId : uint256)
    : DecryptionContext * euint32 * euint32 * FHE.EngineState :=
  (context_of s requestId,
   wealth_of s (batchId (context_of s requestId)),
   encryptedEscapeVelocityThreshold s,
   engine s).

Definition is_success (o : Outcome) : bool :=
  match o with Succeeded _ => true | Failed _ => false end.
End Views.

(** ** Roles, requests and batch opening: further views *)
Section Roles.
Context {Eng : FHE.Engine} {H : Host}.

(** The functions that carry the [onlyOwner] modifier. *)
Definition owner_only (c : Call) : bool :=
  match c with
  | TransferOwnership _ | AddProvider _ | RemoveProvider _ | Pause | Unpause
  | SetCooldownSeconds _ | OpenBatch | CloseBatch => true
  | SubmitPlayerWealth _ _ | RequestEscapeCheck _ | MyCallback _ _ _ => false
  end.

(** [providers[a]] *)
Definition is_provider (s : State) (a : address) : bool :=
  mapping_get false (providers s) a.

(** The storage written only by functions under [onlyOwner]: roles,
    pause flag, cooldown length, batch state and the batch's handles. *)
Definition admin_state (s : State)
    : address * gmap Z bool * bool * uint256 * uint256 * bool
      * euint32 * euint32 * euint32 * euint32 :=
  (owner s, providers s, paused s, cooldownSeconds s, currentBatchId s,
   batchOpen s, encryptedEscapeVelocityThreshold s, encryptedBaseWealth s,
   encryptedBaseThreshold s, encryptedThresholdGrowthRate s).

(** The conditions under which [requestEscapeCheck playerId] is refused. *)
Definition request_refused (env : Env) (s : State) (playerId : uint256) : Prop :=
  paused s = true
  \/ block_timestamp env <
       mapping_get 0 (lastDecryptionRequestTime s) (msg_sender env)
       + cooldownSeconds s
  \/ batchOpen s = false
  \/ FHE.isInitialized (wealth_of s playerId) = false
  \/ FHE.isInitialized (encryptedEscapeVelocityThreshold s) = false.

(** The request id the library allots to [requestEscapeCheck playerId]
    issued in storage [s]. *)
Definition request_id_of (s : State) (playerId : uint256) : uint256 :=
  fst (FHE.requestDecryption (engine s) (request_snapshot s playerId)).

(** The storage after an accepted request. *)
Definition requested (env : Env) (playerId : uint256) (s : State) : State :=
  set_lastDecryptionRequestTime
    (<[msg_sender env := block_timestamp env]> (lastDecryptionRequestTime s))
    (set_decryptionContexts
       (<[request_id_of s playerId :=
            {| batchId := currentBatchId s;
               stateHash := _hashCiphertexts (request_snapshot s playerId);
               processed := false |}]> (decryptionContexts s))
       (set_engine
          (snd (FHE.requestDecryption (engine s) (request_snapshot s playerId)))
          s)).

(** The conditions under which [openBatch] is refused. *)
Definition open_refused (env : Env) (s : State) : Prop :=
  msg_sender env ≠ owner s
  \/ paused s = true
  \/ (batchOpen s = true /\ UINT256_MAX < currentBatchId s + 1)
  \/ FHE.isInitialized (FHE.asEuint32 1000) = false
  \/ FHE.isInitialized (FHE.asEuint32 50) = false.

(** The batch id [openBatch] opens from storage [s]. *)
Definition next_batch_id (s : State) : uint256 :=
  if batchOpen s then currentBatchId s + 1 else currentBatchId s.

(** The error a function under [whenNotPaused] raises on a paused
    contract: that of the role modifier written before [whenNotPaused],
    when it fails, and Paused otherwise. *)
Definition paused_error (c : Call) (env : Env) (s : State) : Error :=
  match c with
  | Pause | OpenBatch | CloseBatch =>
      if negb (msg_sender env =? owner s) then NotOwner else Paused
  | SubmitPlayerWealth _ _ =>
      if negb (is_provider s (msg_sender env)) then NotProvider else Paused
  | _ => Paused
  end.
End Roles.

(** ** A reference engine for running the contract

    Handles carry their plaintext in the clear, shifted by one so that
    the zero handle stays the uninitialized one; the library's storage
    is its request counter; a proof is valid when it repeats the
    cleartexts. *)
Module Ref.
Definition wrap32 (v : Z) : Z := 1 + v mod 2 ^ 32.

#[export] Instance fhe : FHE.Engine := {|
  FHE.EngineState := Z;
  FHE.asEuint32 := wrap32;
  FHE.add := fun a b => wrap32 ((a - 1) + (b - 1));
  FHE.mul := fun a b => wrap32 ((a - 1) * (b - 1));
  FHE.ge := fun a b => if b <=? a then 2 else 1;
  FHE.isInitialized := fun h => negb (h =? 0);
  FHE.toBytes32 := fun h => h;
  FHE.requestDecryption := fun counter _ => (counter, counter + 1);
  FHE.checkSignatures := fun _ _ cleartexts proof =>
    bool_decide (Byte.to_N <$> proof = Byte.to_N <$> cleartexts)
|}.

#[export] Instance evm : Host := {|
  keccak256 := fun ws => fold_left (fun acc w => (acc * 1000003 + w + 1) mod 2 ^ 256) ws 7;
  this := 4919
|}.

Definition alice : address := 10.   (* deployer, owner, provider *)
Definition bob : address := 11.     (* a provider added later *)
Definition carol : address := 12.   (* neither owner nor provider *)

Definition at_ (who : address) (now : uint256) : Env :=
  {| msg_sender := who; block_timestamp := now |}.

Definition deployed : State := snd (deploy (at_ alice 1000) 0).

(** The 32-byte big-endian word of a small number. *)
Definition word (b : Byte.byte) : bytes := replicate 31 Byte.x00 ++ [b].

(** wealth 100, threshold 1000, escaped = false *)
Definition cleartexts_100 : bytes :=
  replicate 31 Byte.x00 ++ [Byte.x64]
  ++ replicate 30 Byte.x00 ++ [Byte.x03; Byte.xe8]
  ++ word Byte.x00.

Definition handle_100 : euint32 := wrap32 100.
Definition handle_1500 : euint32 := wrap32 1500.

(** The owner opens batch 0. *)
Definition opened : State := run [(OpenBatch, at_ alice 1001)] deployed.

(** Wealth 100 is stored for player 7 and anyone asks for its check:
    request 0, issued in batch 0. *)
Definition requested_7 : State :=
  run [(SubmitPlayerWealth 7 handle_100, at_ alice 1002);
       (RequestEscapeCheck 7, at_ carol 1003)] opened.

(** The same for the player whose id happens to be 0, the batch id. *)
Definition requested_0 : State :=
  run [(SubmitPlayerWealth 0 handle_100, at_ alice 1002);
       (RequestEscapeCheck 0, at_ carol 1003)] opened.

(** Request 0 answered, then player 0 resubmitted with wealth 1500. *)
Definition answered_0 : State :=
  run [(MyCallback 0 cleartexts_100 cleartexts_100, at_ carol 1004)] requested_0.

Definition answered_0_resubmitted : State :=
  run [(SubmitPlayerWealth 0 handle_1500, at_ alice 1040)] answered_0.

(** Paused right after deployment, and paused with request 0 pending. *)
Definition paused_fresh : State := run [(Pause, at_ alice 1001)] deployed.
Definition paused_pending : State := run [(Pause, at_ alice 1005)] requested_0.

(** Players 0 and 7 both hold wealth 100; player 7 is checked (request
    0, batch 0) and then resubmitted with wealth 1500 before the answer
    arrives. *)
Definition stale_7 : State :=
  run [(AddProvider bob, at_ alice 1001);
       (OpenBatch, at_ alice 1001);
       (SubmitPlayerWealth 0 handle_100, at_ alice 1002);
       (SubmitPlayerWealth 7 handle_100, at_ bob 1003);
       (RequestEscapeCheck 7, at_ carol 1004);
       (SubmitPlayerWealth 7 handle_1500, at_ bob 1040)] deployed.

(** Batch 0 opened and closed again. *)
Definition closed_again : State :=
  run [(CloseBatch, at_ alice 1002)] opened.

(** Batch 0 reopened while open: batch 1. *)
Definition reopened : State := run [(OpenBatch, at_ alice 1002)] opened.

(** Request 0 pending, player 0 resubmitted with wealth 1500 before the
    answer arrives. *)
Definition overwritten_0 : State :=
  run [(SubmitPlayerWealth 0 handle_1500, at_ alice 1040)] requested_0.

(** What happens after request 0 was answered: a resubmission and a new
    request, which the library numbers 1. *)
Definition later_traffic : list (Call * Env) :=
  [(SubmitPlayerWealth 0 handle_1500, at_ alice 1040);
   (RequestEscapeCheck 0, at_ bob 1041);
   (MyCallback 0 cleartexts_100 cleartexts_100, at_ carol 1042)].
End Ref.

(** ** Further runs on the reference engine *)
Module Scenes.
Import Ref.

(** Batch 0 open, wealth 100 stored for player 0, nothing requested. *)
Definition submitted_0 : State :=
  run [(SubmitPlayerWealth 0 handle_100, at_ alice 1002)] opened.

(** The request of [carol] for player 0 in that storage. *)
Definition request_0 : Call * Env := (RequestEscapeCheck 0, at_ carol 1003).
End Scenes.

(** ** Proof automation: running a call symbolically *)

Ltac unfold_monad :=
  unfold require_not, from_option, checked_add in *;
  unfold bind, ret, revert, sload, sstore, emit in *.

Ltac unfold_contract :=
  unfold call, body, transferOwnership, addProvider, removeProvider, pause,
    unpause, setCooldownSeconds, openBatch, closeBatch, submitPlayerWealth,
    requestEscapeCheck, myCallback, fhe_requestDecryption,
    _calculateInitialThreshold, _requireInitialized,
    onlyOwner, onlyProvider, whenNotPaused, checkSubmissionCooldown,
    checkDecryptionCooldown in *.

Ltac exec :=
  unfold_contract;
  repeat (unfold_monad; simpl in *; simplify_eq; try case_match);
  try done; try congruence.

Section Atomicity.
Context {Eng : FHE.Engine} {H : Host}.

(** No function writes storage before a check that can fail, as long
    as a fresh encoding is an initialized handle (the two checks of
    [_calculateInitialThreshold] come after the writes of
    [openBatch]). *)
Lemma revert_before_write (c : Call) env s e dirty :
  (forall v, FHE.isInitialized (FHE.asEuint32 v) = true) ->
  body c env s = Revert e dirty -> dirty = s.
Proof.
  intros Hinit Hb. destruct c; exec; rewrite Hinit in *; done.
Qed.

Lemma call_reverted (c : Call) env s e dirty :
  body c env s = Revert e dirty -> call c env s = (Failed e, s).
Proof. intros Hb. unfold call. by rewrite Hb. Qed.

Lemma call_failed_inv (c : Call) env s e s' :
  call c env s = (Failed e, s') -> s' = s /\ exists dirty, body c env s = Revert e dirty.
Proof.
  unfold call. destruct (body c env s) eqn:Hb; intros [= <- <-]; eauto.
Qed.

(** C9. Every failing operation is atomic: whenever a function raises
    an error (any of the ten named ones, an arithmetic panic or an ABI
    failure), the transaction reports that error and leaves the storage
    as it was before the call; and the storage at the failed check
    itself is already the storage of before the call, so nothing was
    written before it, for every engine whose fresh encodings are
    initialized handles. *)
Theorem failing_operation_is_atomic (c : Call) env s e dirty :
  body c env s = Revert e dirty ->
  call c env s = (Failed e, s)
  /\ ((forall v, FHE.isInitialized (FHE.asEuint32 v) = true) -> dirty = s).
Proof.
  intros Hb. split.
  - by apply call_reverted with dirty.
  - intros Hinit. by apply revert_before_write with c env e.
Qed.
End Atomicity.

Section BatchLifecycle.
Context {Eng : FHE.Engine} {H : Host}.

(** [closeBatch] as one equation: the guards in the order the
    modifiers run, then the body. *)
Lemma call_closeBatch env s :
  call CloseBatch env s =
    if negb (msg_sender env =? owner s) then (Failed NotOwner, s)
    else if paused s then (Failed Paused, s)
    else if negb (batchOpen s) then (Failed BatchNotOpen, s)
    else (Succeeded [BatchClosed (currentBatchId s)], set_batchOpen false s).
Proof. exec. Qed.

(** What a successful [openBatch] leaves behind. *)
Lemma openBatch_success env s log s' :
  call OpenBatch env s = (Succeeded log, s') ->
  msg_sender env = owner s /\ paused s = false
  /\ currentBatchId s' =
       (if batchOpen s then currentBatchId s + 1 else currentBatchId s)
  /\ batchOpen s' = true
  /\ encryptedBaseWealth s' = FHE.asEuint32 100
  /\ encryptedBaseThreshold s' = FHE.asEuint32 1000
  /\ encryptedThresholdGrowthRate s' = FHE.asEuint32 50
  /\ encryptedEscapeVelocityThreshold s' =
       FHE.add (encryptedBaseThreshold s')
         (FHE.mul (encryptedThresholdGrowthRate s')
                  (FHE.asEuint32 (currentBatchId s')))
  /\ log = [BatchOpened (currentBatchId s')].
Proof.
  intros Hc. exec.
  all: repeat split; try done.
  all: match goal with
       | Ho : negb (_ =? _) = false |- _ =>
           by apply negb_false_iff, Z.eqb_eq in Ho
       end.
Qed.

(** [openBatch] on a closed batch: the id is not touched, also when
    the call fails. *)
Lemma openBatch_closed_keeps_id env s :
  batchOpen s = false ->
  currentBatchId (snd (call OpenBatch env s)) = currentBatchId s.
Proof.
  intros Hclosed. destruct (call OpenBatch env s) as [[log|e] s'] eqn:Hc.
  - apply openBatch_success in Hc as (_ & _ & Hid & _).
    simpl. by rewrite Hid, Hclosed.
  - by apply call_failed_inv in Hc as [-> _].
Qed.

(** C8. On every openBatch that goes through, the base threshold and
    growth rate are set to the encodings of the constants 1000 and 50
    and the escape-velocity threshold is
    baseThreshold + growthRate * batchId, computed with the engine's
    homomorphic add and mul on the encoding of the (new) current batch
    id. *)
Theorem openBatch_computes_threshold env s log s' :
  call OpenBatch env s = (Succeeded log, s') ->
  encryptedBaseThreshold s' = FHE.asEuint32 1000
  /\ encryptedThresholdGrowthRate s' = FHE.asEuint32 50
  /\ encryptedEscapeVelocityThreshold s' =
       FHE.add (FHE.asEuint32 1000)
         (FHE.mul (FHE.asEuint32 50) (FHE.asEuint32 (currentBatchId s'))).
Proof.
  intros Hc.
  apply openBatch_success in Hc as (_ & _ & _ & _ & _ & Hb & Hr & Ht & _).
  rewrite Ht, Hb, Hr. done.
Qed.

(** C5, as the code has it. A closeBatch that goes through (so a
    batch with id n was open) leaves the batch id at n, and so does the
    next openBatch after it: no advance is deferred by a close. *)
Theorem close_then_open_keeps_batch_id env env' s log s1 :
  call CloseBatch env s = (Succeeded log, s1) ->
  batchOpen s = true
  /\ currentBatchId s1 = currentBatchId s
  /\ currentBatchId (snd (call OpenBatch env' s1)) = currentBatchId s.
Proof.
  rewrite call_closeBatch. intros Hc.
  repeat case_match; simplify_eq.
  split; [by destruct (batchOpen s)|]. split; [done|].
  by rewrite openBatch_closed_keeps_id.
Qed.

(** C6, as the code has it. The second of two successive openBatch
    calls that go through raises the batch id by exactly one and
    recomputes the threshold for the new id; closeBatch on a closed
    batch always fails and leaves the storage as it was: with NotOwner
    for a caller who is not the owner, with Paused for the owner of a
    paused contract, and with BatchNotOpen for the owner of a contract
    that is not paused. *)
Theorem reopen_increments_and_close_needs_open :
  (forall env1 env2 s l1 s1 l2 s2,
      call OpenBatch env1 s = (Succeeded l1, s1) ->
      call OpenBatch env2 s1 = (Succeeded l2, s2) ->
      currentBatchId s2 = currentBatchId s1 + 1
      /\ encryptedEscapeVelocityThreshold s2 =
           FHE.add (FHE.asEuint32 1000)
             (FHE.mul (FHE.asEuint32 50) (FHE.asEuint32 (currentBatchId s2))))
  /\ (forall env s,
        batchOpen s = false ->
        (msg_sender env ≠ owner s ->
         call CloseBatch env s = (Failed NotOwner, s))
        /\ (msg_sender env = owner s -> paused s = true ->
            call CloseBatch env s = (Failed Paused, s))
        /\ (msg_sender env = owner s -> paused s = false ->
            call CloseBatch env s = (Failed BatchNotOpen, s))).
Proof.
  split.
  - intros env1 env2 s l1 s1 l2 s2 H1 H2.
    apply openBatch_success in H1 as (_ & _ & _ & Hopen & _).
    pose proof (openBatch_success _ _ _ _ H2)
      as (_ & _ & Hid & _ & _ & Hb & Hr & Ht & _).
    rewrite Hopen in Hid. split; [done|]. by rewrite Ht, Hb, Hr.
  - intros env s Hclosed. rewrite call_closeBatch, Hclosed. simpl.
    split; [|split].
    + intros Hne. apply Z.eqb_neq in Hne. by rewrite Hne.
    + intros -> ->. by rewrite Z.eqb_refl.
    + intros -> ->. by rewrite Z.eqb_refl.
Qed.
End BatchLifecycle.

Section Submission.
Context {Eng : FHE.Engine} {H : Host}.

(** [submitPlayerWealth] as one equation: the checks in the order the
    modifiers and the body run them. The sum of the cooldown check is
    checked arithmetic. *)
Lemma call_submitPlayerWealth env s playerId h :
  call (SubmitPlayerWealth playerId h) env s =
    let last := mapping_get 0 (lastSubmissionTime s) (msg_sender env) in
    if negb (mapping_get false (providers s) (msg_sender env)) then (Failed NotProvider, s)
    else if paused s then (Failed Paused, s)
    else if last + cooldownSeconds s <=? UINT256_MAX then
      if block_timestamp env <? last + cooldownSeconds s then (Failed CooldownActive, s)
      else if negb (batchOpen s) then (Failed BatchNotOpen, s)
      else if negb (FHE.isInitialized h) then (Failed NotInitialized, s)
      else (Succeeded [WealthSubmitted (msg_sender env) playerId h],
            submitted env playerId h s)
    else (Failed Panic, s).
Proof. exec. Qed.

(** C7. With the block time a uint256, submitPlayerWealth fails exactly
    when the batch is closed, the caller is not a provider, the contract
    is paused, the caller's submission cooldown has not elapsed
    (now < last submission + cooldown) or the handle is uninitialized, and
    a failure leaves the storage as it was; otherwise it goes through,
    emits WealthSubmitted and leaves the storage [submitted]: the handle
    stored for that player id is the submitted one whatever was there
    before, the other players are untouched, and the caller's
    last-submission time is the current time. *)
Theorem submitPlayerWealth_fails_exactly_when env s playerId h :
  block_timestamp env <= UINT256_MAX ->
  ((exists e, call (SubmitPlayerWealth playerId h) env s = (Failed e, s))
     <-> submission_refused env s h)
  /\ (~ submission_refused env s h ->
      call (SubmitPlayerWealth playerId h) env s =
        (Succeeded [WealthSubmitted (msg_sender env) playerId h],
         submitted env playerId h s))
  /\ wealth_of (submitted env playerId h s) playerId = h
  /\ (forall other, other ≠ playerId ->
        wealth_of (submitted env playerId h s) other = wealth_of s other)
  /\ mapping_get 0 (lastSubmissionTime (submitted env playerId h s))
       (msg_sender env) = block_timestamp env.
Proof.
  intros Hnow. split; [|split; [|split; [|split]]].
  - rewrite call_submitPlayerWealth. unfold submission_refused. cbv zeta.
    set (limit := mapping_get 0 (lastSubmissionTime s) (msg_sender env)
                  + cooldownSeconds s).
    destruct (mapping_get false (providers s) (msg_sender env)); simpl;
      [|split; eauto].
    destruct (paused s); [split; eauto 6|].
    destruct (Z.leb_spec limit UINT256_MAX) as [Hov|Hov];
      [|split; [right; right; right; left; lia | eauto]].
    destruct (Z.ltb_spec (block_timestamp env) limit) as [Hcd|Hcd];
      [split; eauto 6|].
    destruct (batchOpen s); simpl; [|split; eauto].
    destruct (FHE.isInitialized h); simpl; [|split; eauto 8].
    split; [intros [e [=]] | intros [|[|[|[|]]]]; (done || lia)].
  - intros Hok. unfold submission_refused in Hok.
    apply Decidable.not_or in Hok as [Ho Hok].
    apply Decidable.not_or in Hok as [Hp Hok].
    apply Decidable.not_or in Hok as [Hpa Hok].
    apply Decidable.not_or in Hok as [Hcd Hi].
    apply not_false_iff_true in Ho, Hp, Hi. apply not_true_iff_false in Hpa.
    rewrite call_submitPlayerWealth. cbv zeta. rewrite Ho, Hp, Hpa, Hi. simpl.
    set (limit := mapping_get 0 (lastSubmissionTime s) (msg_sender env)
                  + cooldownSeconds s) in *.
    destruct (Z.leb_spec limit UINT256_MAX); [|lia].
    destruct (Z.ltb_spec (block_timestamp env) limit); [lia|done].
  - unfold wealth_of, submitted, mapping_get; simpl. by rewrite lookup_insert_eq.
  - intros other Hne. unfold wealth_of, submitted, mapping_get; simpl.
    by rewrite lookup_insert_ne.
  - unfold submitted, mapping_get; simpl. by rewrite lookup_insert_eq.
Qed.
End Submission.

Section Callback.
Context {Eng : FHE.Engine} {H : Host}.

(** [myCallback] as one equation: the checks in their order, then the
    single write. The caller and the time do not occur on the right. *)
Lemma call_myCallback env s requestId cleartexts proof :
  call (MyCallback requestId cleartexts proof) env s =
    let context := context_of s requestId in
    if processed context then (Failed ReplayAttempt, s)
    else if negb (currentStateHash s requestId =? stateHash context)
         then (Failed StateMismatch, s)
    else if negb (FHE.checkSignatures (engine s) requestId cleartexts proof)
         then (Failed InvalidProof, s)
    else match decode_cleartexts cleartexts with
         | Some (wealth, threshold, escaped) =>
             (Succeeded [DecryptionCompleted requestId (batchId context)
                           wealth threshold escaped],
              mark_processed requestId s)
         | None => (Failed AbiRevert, s)
         end.
Proof.
  unfold decode_cleartexts, currentStateHash, currentCts, wealth_of, context_of,
    mark_processed.
  cbv zeta. exec.
  all: match goal with
       | Hd : abi_decode_bool _ = _, Hm : _ ≫= _ = _ |- _ =>
           rewrite Hd in Hm; simpl in Hm; by simplify_eq
       end.
Qed.

Lemma context_of_mark_processed s requestId :
  processed (context_of (mark_processed requestId s) requestId) = true.
Proof.
  unfold context_of, mark_processed, mapping_get. simpl.
  by rewrite lookup_insert_eq.
Qed.

Lemma processed_stable c env s requestId :
  processed (context_of s requestId) = true ->
  (forall cts, fst (FHE.requestDecryption (engine s) cts) ≠ requestId) ->
  processed (context_of (snd (call c env s)) requestId) = true.
Proof.
  intros Hp Hfresh. destruct c.
  11: { rewrite call_myCallback. cbv zeta. repeat case_match; simpl; try done.
        destruct (decide (requestId0 = requestId)) as [->|Hne];
          [apply context_of_mark_processed|].
        unfold context_of, mark_processed, mapping_get in *. simpl.
        by rewrite lookup_insert_ne. }
  all: exec.
  match goal with
  | Hr : FHE.requestDecryption _ ?cts = _ |- _ =>
      specialize (Hfresh cts); rewrite Hr in Hfresh; simpl in Hfresh
  end.
  unfold context_of, mapping_get in *. simpl. by rewrite lookup_insert_ne.
Qed.

Lemma processed_stable_run txs : forall s requestId,
  processed (context_of s requestId) = true ->
  never_reallotted requestId txs s ->
  processed (context_of (run txs s) requestId) = true.
Proof.
  induction txs as [|[c env] rest IH]; intros s requestId Hp Hfresh; [done|].
  destruct Hfresh as [Hnow Hrest]. simpl. apply IH; [|done].
  by apply processed_stable.
Qed.

(** C2. A callback is accepted at most once per request id. When a
    callback for a request id goes through, it emits the completed
    signal and marks the context processed; from then on, after any
    further transactions in which the library does not hand out that
    request id again, every callback for the same request id, whoever
    sends it and whatever cleartexts and proof it carries, fails with
    ReplayAttempt and leaves the storage as it was. *)
Theorem callback_accepted_at_most_once env s requestId cleartexts proof log s' :
  call (MyCallback requestId cleartexts proof) env s = (Succeeded log, s') ->
  (exists wealth threshold escaped,
      log = [DecryptionCompleted requestId (batchId (context_of s requestId))
               wealth threshold escaped])
  /\ processed (context_of s' requestId) = true
  /\ forall txs env' cleartexts' proof',
       never_reallotted requestId txs s' ->
       call (MyCallback requestId cleartexts' proof') env' (run txs s')
       = (Failed ReplayAttempt, run txs s').
Proof.
  rewrite call_myCallback. cbv zeta. intros Hc.
  repeat case_match; simplify_eq.
  split; [eauto|]. split; [apply context_of_mark_processed|].
  intros txs env' cleartexts' proof' Hfresh.
  rewrite call_myCallback. cbv zeta.
  rewrite processed_stable_run; [done| |done].
  apply context_of_mark_processed.
Qed.

(** C3. For a pending context, one not yet processed, a callback
    whose recomputed digest differs from the stored stateHash fails with
    StateMismatch whatever the proof is worth (the library's signature
    check is not consulted); the transaction leaves the storage as it
    was, so the context stays unprocessed, and no signal is emitted. *)
Theorem digest_mismatch_rejected env s requestId cleartexts proof :
  processed (context_of s requestId) = false ->
  currentStateHash s requestId ≠ stateHash (context_of s requestId) ->
  call (MyCallback requestId cleartexts proof) env s = (Failed StateMismatch, s)
  /\ processed (context_of (snd (call (MyCallback requestId cleartexts proof) env s))
                          requestId) = false.
Proof.
  intros Hp Hne.
  assert (Hc : call (MyCallback requestId cleartexts proof) env s
               = (Failed StateMismatch, s)).
  { rewrite call_myCallback. cbv zeta. rewrite Hp.
    apply Z.eqb_neq in Hne. by rewrite Hne. }
  by rewrite Hc.
Qed.

(** C10. The callback is neither access-controlled nor pause-gated: its
    outcome is a function of what it reads from storage (the context of
    the request id, the wealth handle it looks up, the threshold handle
    and the library's state) and of the cleartexts and proof. Two calls
    that agree on these, from any two callers at any two times and with
    any pause flags, succeed or fail alike, with the same error or the
    same signal, and each writes the same thing: nothing on failure, the
    processed mark on success. *)
Theorem callback_ignores_caller env1 env2 s1 s2 requestId cleartexts proof :
  callback_inputs s1 requestId = callback_inputs s2 requestId ->
  let r1 := call (MyCallback requestId cleartexts proof) env1 s1 in
  let r2 := call (MyCallback requestId cleartexts proof) env2 s2 in
  fst r1 = fst r2
  /\ snd r1 = (if is_success (fst r1) then mark_processed requestId s1 else s1)
  /\ snd r2 = (if is_success (fst r2) then mark_processed requestId s2 else s2).
Proof.
  unfold callback_inputs. intros [= Hctx Hw Ht He]. cbv zeta.
  rewrite !call_myCallback. cbv zeta.
  unfold currentStateHash, currentCts. rewrite Hw, Ht, He, Hctx.
  repeat case_match; simplify_eq; done.
Qed.
End Callback.

Section PauseSwitch.
Context {Eng : FHE.Engine} {H : Host}.

(** C4, as the code has it. While the pause flag is set, the functions
    that carry whenNotPaused (pause, openBatch, closeBatch,
    submitPlayerWealth, requestEscapeCheck) are rejected with no state
    change, with Paused unless the owner or provider check written
    before it already failed (then with NotOwner or NotProvider). The
    other functions (transferOwnership, addProvider, removeProvider,
    unpause, setCooldownSeconds, myCallback) do not look at the flag:
    each has the outcome it has with the flag cleared, and writes the
    same storage, the two results differing only in the pause flag,
    which stays set except after an unpause that went through. *)
Theorem pause_gates_only_guarded_calls (c : Call) env s :
  paused s = true ->
  if pause_gated c
  then call c env s = (Failed (paused_error c env s), s)
  else
    let cleared := call c env (set_paused false s) in
    fst (call c env s) = fst cleared
    /\ set_paused false (snd (call c env s)) = set_paused false (snd cleared)
    /\ paused (snd (call c env s))
       = match c with
         | Unpause => negb (is_success (fst cleared))
         | _ => true
         end.
Proof.
  intros Hp. destruct c; cbn [pause_gated paused_error]; cbv zeta.
  11: { rewrite !call_myCallback. cbv zeta.
        unfold currentStateHash, currentCts, wealth_of, context_of. simpl.
        by repeat case_match. }
  all: unfold is_provider; exec.
Qed.
End PauseSwitch.
(** ** Reading off the result of a transaction *)
Section Results.
Context {Eng : FHE.Engine} {H : Host}.

Lemma call_outcome_run c env s o :
  fst (call c env s) = o -> call c env s = (o, run [(c, env)] s).
Proof. simpl. destruct (call c env s). simpl. by intros ->. Qed.

Lemma call_failed_state c env s e :
  fst (call c env s) = Failed e -> call c env s = (Failed e, s).
Proof.
  unfold call. destruct (body c env s); simpl; intros [=]. by subst.
Qed.

Lemma callback_success_state env s requestId cleartexts proof log :
  fst (call (MyCallback requestId cleartexts proof) env s) = Succeeded log ->
  call (MyCallback requestId cleartexts proof) env s
  = (Succeeded log, mark_processed requestId s).
Proof.
  rewrite call_myCallback. cbv zeta.
  repeat case_match; simpl; intros [=]; by subst.
Qed.
End Results.

(** ** Access control *)
Section AccessControl.
Context {Eng : FHE.Engine} {H : Host}.

Lemma sender_is_owner env s :
  negb (msg_sender env =? owner s) = false <-> msg_sender env = owner s.
Proof. rewrite negb_false_iff. apply Z.eqb_eq. Qed.

Lemma sender_not_owner env s :
  negb (msg_sender env =? owner s) = true <-> msg_sender env ≠ owner s.
Proof. rewrite negb_true_iff. apply Z.eqb_neq. Qed.

(** X1. A caller who is not the owner is turned away from every function
    under onlyOwner with NotOwner, before anything else is looked at
    (pause flag, batch state, arguments), and the storage stays as it
    was. *)
Theorem only_owner_passes_onlyOwner (c : Call) env s :
  owner_only c = true ->
  msg_sender env ≠ owner s ->
  call c env s = (Failed NotOwner, s).
Proof.
  intros Hc Hne. apply sender_not_owner in Hne.
  destruct c; try discriminate Hc; exec.
Qed.

(** X2. A call from anyone but the owner leaves the administrative
    storage alone: owner, providers, pause flag, cooldown length, batch
    id, batch flag and the batch's four handles are after the call what
    they were before it, whatever the function and its arguments. *)
Theorem non_owner_cannot_touch_admin_state (c : Call) env s :
  msg_sender env ≠ owner s ->
  admin_state (snd (call c env s)) = admin_state s.
Proof.
  intros Hne. apply sender_not_owner in Hne.
  destruct c; exec.
Qed.

(** X3. The stored wealth handles change only through an accepted
    submission: after any call either the whole wealth mapping is what
    it was, or the call was submitPlayerWealth from a provider, on an
    open batch of an unpaused contract, with an initialized handle, and
    the mapping is the old one with that player's entry replaced. *)
Theorem wealth_changes_only_by_submission (c : Call) env s :
  encryptedPlayerWealth (snd (call c env s)) = encryptedPlayerWealth s
  \/ exists playerId h,
       c = SubmitPlayerWealth playerId h
       /\ is_provider s (msg_sender env) = true
       /\ paused s = false /\ batchOpen s = true
       /\ FHE.isInitialized h = true
       /\ encryptedPlayerWealth (snd (call c env s))
          = <[playerId := h]> (encryptedPlayerWealth s).
Proof.
  destruct c; try (left; exec; fail).
  rewrite call_submitPlayerWealth. cbv zeta. unfold is_provider.
  destruct (mapping_get false (providers s) (msg_sender env)); [|by left].
  destruct (paused s); [by left|].
  destruct (batchOpen s); [|repeat case_match; by left].
  destruct (FHE.isInitialized encryptedWealth) eqn:Hi;
    [|repeat case_match; by left].
  simpl. repeat case_match; try (by left).
  right. by exists playerId, encryptedWealth.
Qed.
End AccessControl.

Section RoleOperations.
Context {Eng : FHE.Engine} {H : Host}.

(** X4. transferOwnership from the owner always goes through, for every
    new owner (the zero address and the owner itself included) and
    whatever the pause flag; it writes the owner and nothing else. If the
    new owner is another address, the previous owner is from then on
    refused with NotOwner by every function under onlyOwner, but keeps
    whatever provider status it had. *)
Theorem transferOwnership_hands_over env s newOwner :
  msg_sender env = owner s ->
  call (TransferOwnership newOwner) env s
  = (Succeeded [OwnershipTransferred (owner s) newOwner], set_owner newOwner s)
  /\ (newOwner ≠ owner s ->
      forall c env', owner_only c = true -> msg_sender env' = owner s ->
        call c env' (set_owner newOwner s) = (Failed NotOwner, set_owner newOwner s))
  /\ is_provider (set_owner newOwner s) (owner s) = is_provider s (owner s).
Proof.
  intros Ho.
  assert (Hn : negb (msg_sender env =? owner s) = false).
  { apply negb_false_iff, Z.eqb_eq, Ho. }
  split; [|split; [|done]].
  - exec.
  - intros Hne c env' Hc Ho'.
    assert (Hn' : negb (msg_sender env' =? newOwner) = true).
    { apply negb_true_iff, Z.eqb_neq. congruence. }
    destruct c; try discriminate Hc; exec.
Qed.

(** X5. addProvider and removeProvider from the owner always go through
    and set exactly the named address: afterwards it is (is not) a
    provider and every other address is what it was. Both are idempotent
    in effect: adding a provider or removing a non-provider changes
    nobody's status, and still emits the signal. *)
Theorem provider_add_remove env s provider :
  msg_sender env = owner s ->
  let added := call (AddProvider provider) env s in
  let removed := call (RemoveProvider provider) env s in
  fst added = Succeeded [ProviderAdded provider]
  /\ fst removed = Succeeded [ProviderRemoved provider]
  /\ (forall a, is_provider (snd added) a
                = if decide (a = provider) then true else is_provider s a)
  /\ (forall a, is_provider (snd removed) a
                = if decide (a = provider) then false else is_provider s a)
  /\ (is_provider s provider = true ->
      forall a, is_provider (snd added) a = is_provider s a)
  /\ (is_provider s provider = false ->
      forall a, is_provider (snd removed) a = is_provider s a).
Proof.
  intros Ho. cbv zeta.
  assert (Hn : negb (msg_sender env =? owner s) = false).
  { apply negb_false_iff, Z.eqb_eq, Ho. }
  assert (Ha : call (AddProvider provider) env s
               = (Succeeded [ProviderAdded provider],
                  set_providers (<[provider := true]> (providers s)) s)) by exec.
  assert (Hr : call (RemoveProvider provider) env s
               = (Succeeded [ProviderRemoved provider],
                  set_providers (<[provider := false]> (providers s)) s)) by exec.
  rewrite Ha, Hr. simpl. unfold is_provider, mapping_get. simpl.
  split; [done|]. split; [done|].
  split; [|split; [|split]]; intros; rewrite lookup_insert;
    repeat case_decide; subst; simpl; congruence.
Qed.

(** X6. The provider check is independent of ownership: once the owner
    has removed an address from the providers, every submission from
    that address is refused with NotProvider, whatever else holds, and
    this is so for the owner's own address too, which stays the owner. *)
Theorem removed_provider_cannot_submit env s provider :
  msg_sender env = owner s ->
  let s1 := snd (call (RemoveProvider provider) env s) in
  owner s1 = owner s
  /\ forall env' playerId h,
       msg_sender env' = provider ->
       call (SubmitPlayerWealth playerId h) env' s1 = (Failed NotProvider, s1).
Proof.
  intros Ho. cbv zeta.
  assert (Hn : negb (msg_sender env =? owner s) = false).
  { apply negb_false_iff, Z.eqb_eq, Ho. }
  assert (Hr : call (RemoveProvider provider) env s
               = (Succeeded [ProviderRemoved provider],
                  set_providers (<[provider := false]> (providers s)) s)) by exec.
  rewrite Hr. simpl. split; [done|].
  intros env' playerId h Hs. rewrite call_submitPlayerWealth. cbv zeta. simpl.
  unfold mapping_get. by rewrite Hs, lookup_insert_eq.
Qed.

Lemma set_paused_round_trip s :
  paused s = false -> set_paused false (set_paused true s) = s.
Proof. destruct s; simpl; intros ->; done. Qed.

(** X7. pause and unpause are not symmetric. From the owner, pause on a
    paused contract fails with Paused, while unpause goes through
    whatever the flag is and leaves it cleared; and on an unpaused
    contract pause followed by unpause gives back the very storage they
    started from. *)
Theorem pause_unpause_asymmetry env env' s :
  msg_sender env = owner s ->
  msg_sender env' = owner s ->
  (paused s = true -> call Pause env s = (Failed Paused, s))
  /\ call Unpause env s = (Succeeded [ContractUnpaused], set_paused false s)
  /\ (paused s = false ->
      call Pause env s = (Succeeded [ContractPaused], set_paused true s)
      /\ run [(Pause, env); (Unpause, env')] s = s).
Proof.
  intros Ho Ho'.
  assert (Hn : negb (msg_sender env =? owner s) = false).
  { apply negb_false_iff, Z.eqb_eq, Ho. }
  assert (Hn' : negb (msg_sender env' =? owner s) = false).
  { apply negb_false_iff, Z.eqb_eq, Ho'. }
  split; [|split].
  - intros Hp. exec.
  - exec.
  - intros Hp.
    assert (Hc : call Pause env s = (Succeeded [ContractPaused], set_paused true s))
      by exec.
    split; [done|].
    cbn [run]. rewrite Hc. cbn [snd].
    assert (Hu : call Unpause env' (set_paused true s)
                 = (Succeeded [ContractUnpaused], set_paused false (set_paused true s)))
      by exec.
    rewrite Hu. cbn [snd]. by apply set_paused_round_trip.
Qed.
End RoleOperations.

(** ** Invariants along sequences of transactions *)
Section Invariants.
Context {Eng : FHE.Engine} {H : Host}.

(** [requestEscapeCheck] as one equation: the checks in the order the
    modifiers and the body run them, then the writes. *)
Lemma call_requestEscapeCheck env s playerId :
  call (RequestEscapeCheck playerId) env s =
    let last := mapping_get 0 (lastDecryptionRequestTime s) (msg_sender env) in
    if paused s then (Failed Paused, s)
    else if last + cooldownSeconds s <=? UINT256_MAX then
      if block_timestamp env <? last + cooldownSeconds s
      then (Failed CooldownActive, s)
      else if negb (batchOpen s) then (Failed BatchNotOpen, s)
      else if negb (FHE.isInitialized (wealth_of s playerId))
           then (Failed NotInitialized, s)
      else if negb (FHE.isInitialized (encryptedEscapeVelocityThreshold s))
           then (Failed NotInitialized, s)
      else (Succeeded [DecryptionRequested (request_id_of s playerId)
                         (currentBatchId s)],
            requested env playerId s)
    else (Failed Panic, s).
Proof.
  unfold requested, request_id_of, request_snapshot, wealth_of. cbv zeta.
  exec.
  all: match goal with
       | Hr : FHE.requestDecryption _ _ = _ |- _ => by rewrite Hr
       end.
Qed.

Lemma context_of_requested env s playerId :
  context_of (requested env playerId s) (request_id_of s playerId)
  = {| batchId := currentBatchId s;
       stateHash := _hashCiphertexts (request_snapshot s playerId);
       processed := false |}.
Proof.
  unfold context_of, requested, mapping_get. simpl. by rewrite lookup_insert_eq.
Qed.

Lemma context_of_requested_ne env s playerId requestId :
  requestId ≠ request_id_of s playerId ->
  context_of (requested env playerId s) requestId = context_of s requestId.
Proof.
  intros Hne. unfold context_of, requested, mapping_get. simpl.
  by rewrite lookup_insert_ne.
Qed.

Lemma cooldown_nonzero_step c env s :
  (cooldownSeconds s =? 0) = false ->
  (cooldownSeconds (snd (call c env s)) =? 0) = false.
Proof. intros Hs. destruct c; exec. Qed.

Lemma cooldown_nonzero_run txs : forall s,
  (cooldownSeconds s =? 0) = false ->
  (cooldownSeconds (run txs s) =? 0) = false.
Proof.
  induction txs as [|[c env] rest IH]; intros s Hs; [done|].
  simpl. by apply IH, cooldown_nonzero_step.
Qed.

(** X8. The cooldown length is never zero: the constructor sets it to
    30, setCooldownSeconds refuses 0 with InvalidParameters, and nothing
    else writes it, so after deployment and any sequence of transactions
    whatsoever it is different from 0. *)
Theorem cooldown_is_never_zero env e txs :
  fst (deploy env e) = Succeeded [ProviderAdded (msg_sender env)]
  /\ cooldownSeconds (snd (deploy env e)) = 30
  /\ (forall env' s, msg_sender env' = owner s ->
        call (SetCooldownSeconds 0) env' s = (Failed InvalidParameters, s))
  /\ (cooldownSeconds (run txs (snd (deploy env e))) =? 0) = false.
Proof.
  split; [done|]. split; [done|]. split.
  - intros env' s Ho.
    assert (Hn : negb (msg_sender env' =? owner s) = false).
    { apply negb_false_iff, Z.eqb_eq, Ho. }
    exec.
  - by apply cooldown_nonzero_run.
Qed.

Lemma batch_id_step c env s :
  currentBatchId (snd (call c env s)) = currentBatchId s
  \/ currentBatchId (snd (call c env s)) = currentBatchId s + 1.
Proof. destruct c; exec; auto. Qed.

(** X9. The batch id only ever grows, and by at most one per
    transaction: after any sequence of transactions it is the id of
    before plus some number not larger than the number of
    transactions. *)
Theorem batch_id_never_decreases txs : forall s,
  exists k : nat,
    (k <= length txs)%nat
    /\ currentBatchId (run txs s) = currentBatchId s + Z.of_nat k.
Proof.
  induction txs as [|[c env] rest IH]; intros s.
  - exists 0%nat. simpl. split; [done|lia].
  - simpl. destruct (IH (snd (call c env s))) as (k & Hk & Hid).
    destruct (batch_id_step c env s) as [Hs|Hs].
    + exists k. split; [lia|]. by rewrite Hid, Hs.
    + exists (S k). split; [lia|]. rewrite Hid, Hs. lia.
Qed.

(** X10. What a decryption context binds is fixed at the request: for
    every call and every request id, either the batch id and the digest
    stored under that id are after the call what they were before, and a
    processed mark stays, or the call is a requestEscapeCheck to which
    the library allotted that very id, which then holds the fresh,
    unprocessed context of the request. The callback, in particular,
    never rewrites a digest or a batch id and never clears a mark. *)
Theorem context_binding_is_fixed (c : Call) env s requestId :
  let s' := snd (call c env s) in
  (batchId (context_of s' requestId) = batchId (context_of s requestId)
   /\ stateHash (context_of s' requestId) = stateHash (context_of s requestId)
   /\ (processed (context_of s requestId) = true ->
       processed (context_of s' requestId) = true))
  \/ (exists playerId,
        c = RequestEscapeCheck playerId
        /\ requestId = request_id_of s playerId
        /\ context_of s' requestId
           = {| batchId := currentBatchId s;
                stateHash := _hashCiphertexts (request_snapshot s playerId);
                processed := false |}).
Proof.
  cbv zeta. destruct c.
  11: { left. rewrite call_myCallback. cbv zeta.
        repeat case_match; simpl; try done.
        unfold context_of, mark_processed, mapping_get. simpl.
        rewrite lookup_insert. case_decide; subst; simpl; done. }
  10: { rewrite call_requestEscapeCheck. cbv zeta.
        destruct (decide (requestId = request_id_of s playerId)) as [->|Hne].
        - repeat case_match; simpl; try (by left).
          right. exists playerId. split; [done|]. split; [done|].
          apply context_of_requested.
        - left. repeat case_match; simpl; try done.
          by rewrite context_of_requested_ne. }
  all: left; exec.
Qed.
End Invariants.

(** ** Decryption requests *)
Section Requests.
Context {Eng : FHE.Engine} {H : Host}.

(** X11. With the block time a uint256, requestEscapeCheck fails exactly
    when the contract is paused, the caller's decryption cooldown has not
    elapsed, the batch is closed, or the player's wealth handle or the
    threshold handle is uninitialized; no role is asked of the caller.
    Otherwise it goes through: it stores under the id the library allots
    a context with the current batch id, the digest of the snapshot and
    processed = false, sets the caller's last-request time to the current
    time, and leaves the administrative storage, the wealth handles and
    the submission times as they were. *)
Theorem requestEscapeCheck_fails_exactly_when env s playerId :
  block_timestamp env <= UINT256_MAX ->
  ((exists e, call (RequestEscapeCheck playerId) env s = (Failed e, s))
     <-> request_refused env s playerId)
  /\ (~ request_refused env s playerId ->
      call (RequestEscapeCheck playerId) env s
      = (Succeeded [DecryptionRequested (request_id_of s playerId)
                      (currentBatchId s)],
         requested env playerId s))
  /\ context_of (requested env playerId s) (request_id_of s playerId)
     = {| batchId := currentBatchId s;
          stateHash := _hashCiphertexts (request_snapshot s playerId);
          processed := false |}
  /\ mapping_get 0 (lastDecryptionRequestTime (requested env playerId s))
       (msg_sender env) = block_timestamp env
  /\ admin_state (requested env playerId s) = admin_state s
  /\ encryptedPlayerWealth (requested env playerId s) = encryptedPlayerWealth s
  /\ lastSubmissionTime (requested env playerId s) = lastSubmissionTime s.
Proof.
  intros Hnow. split; [|split; [|split; [|split; [|done]]]].
  - rewrite call_requestEscapeCheck. unfold request_refused. cbv zeta.
    set (limit := mapping_get 0 (lastDecryptionRequestTime s) (msg_sender env)
                  + cooldownSeconds s).
    destruct (paused s); [split; eauto|].
    destruct (Z.leb_spec limit UINT256_MAX) as [Hov|Hov];
      [|split; [right; left; lia | eauto]].
    destruct (Z.ltb_spec (block_timestamp env) limit) as [Hcd|Hcd];
      [split; eauto|].
    destruct (batchOpen s); simpl; [|split; eauto 6].
    destruct (FHE.isInitialized (wealth_of s playerId)); simpl; [|split; eauto 8].
    destruct (FHE.isInitialized (encryptedEscapeVelocityThreshold s)); simpl;
      [|split; eauto 8].
    split; [intros [e [=]] | intros [|[|[|[|]]]]; (done || lia)].
  - intros Hok. unfold request_refused in Hok.
    apply Decidable.not_or in Hok as [Hpa Hok].
    apply Decidable.not_or in Hok as [Hcd Hok].
    apply Decidable.not_or in Hok as [Ho Hok].
    apply Decidable.not_or in Hok as [Hw Ht].
    apply not_false_iff_true in Ho, Hw, Ht. apply not_true_iff_false in Hpa.
    rewrite call_requestEscapeCheck. cbv zeta. rewrite Ho, Hpa, Hw, Ht. simpl.
    set (limit := mapping_get 0 (lastDecryptionRequestTime s) (msg_sender env)
                  + cooldownSeconds s) in *.
    destruct (Z.leb_spec limit UINT256_MAX); [|lia].
    destruct (Z.ltb_spec (block_timestamp env) limit); [lia|done].
  - apply context_of_requested.
  - unfold requested, mapping_get; simpl. by rewrite lookup_insert_eq.
Qed.

(** X12. The round trip of the oracle protocol, as far as the code
    supports it: when a request for a player goes through and the wealth
    row of the current batch id holds the same handle as the player's
    row (as it does for the player whose id is the batch id), then a
    callback for the allotted id arriving right after it, from anyone,
    with a proof the library accepts and cleartexts that decode, is
    accepted: it emits DecryptionCompleted with the request's batch id
    and the decoded values, and marks the context processed. *)
Theorem request_then_callback_round_trip env env' s playerId log s'
    cleartexts proof wealth threshold escaped :
  call (RequestEscapeCheck playerId) env s = (Succeeded log, s') ->
  wealth_of s (currentBatchId s) = wealth_of s playerId ->
  FHE.checkSignatures (engine s') (request_id_of s playerId) cleartexts proof
    = true ->
  decode_cleartexts cleartexts = Some (wealth, threshold, escaped) ->
  log = [DecryptionRequested (request_id_of s playerId) (currentBatchId s)]
  /\ call (MyCallback (request_id_of s playerId) cleartexts proof) env' s'
     = (Succeeded [DecryptionCompleted (request_id_of s playerId)
                     (currentBatchId s) wealth threshold escaped],
        mark_processed (request_id_of s playerId) s')
  /\ processed (context_of (mark_processed (request_id_of s playerId) s')
                           (request_id_of s playerId)) = true.
Proof.
  rewrite call_requestEscapeCheck. cbv zeta. intros Hc Hrow Hsig Hdec.
  repeat case_match; simplify_eq.
  split; [done|]. split; [|apply context_of_mark_processed].
  rewrite call_myCallback. cbv zeta.
  unfold currentStateHash, currentCts.
  rewrite context_of_requested. cbn [batchId stateHash processed].
  change (encryptedEscapeVelocityThreshold (requested env playerId s))
    with (encryptedEscapeVelocityThreshold s).
  change (wealth_of (requested env playerId s) (currentBatchId s))
    with (wealth_of s (currentBatchId s)).
  rewrite Hrow. fold (request_snapshot s playerId).
  rewrite Z.eqb_refl, Hsig, Hdec. done.
Qed.

(** X13. The callback does not ask whether the request id was ever
    issued: an id with no stored context is read as the zero context
    (batch 0, digest 0, not processed). Such a callback is refused with
    StateMismatch whenever the digest of the snapshot of wealth row 0 is
    not 0, and it is accepted, and creates a processed context, when that
    digest is 0, the proof passes and the cleartexts decode. *)
Theorem callback_for_unknown_request env s requestId cleartexts proof :
  decryptionContexts s !! requestId = None ->
  (_hashCiphertexts (request_snapshot s 0) ≠ 0 ->
   call (MyCallback requestId cleartexts proof) env s = (Failed StateMismatch, s))
  /\ (forall wealth threshold escaped,
        _hashCiphertexts (request_snapshot s 0) = 0 ->
        FHE.checkSignatures (engine s) requestId cleartexts proof = true ->
        decode_cleartexts cleartexts = Some (wealth, threshold, escaped) ->
        call (MyCallback requestId cleartexts proof) env s
        = (Succeeded [DecryptionCompleted requestId 0 wealth threshold escaped],
           mark_processed requestId s)).
Proof.
  intros Hnone.
  assert (Hctx : context_of s requestId = DecryptionContext_zero).
  { unfold context_of, mapping_get. by rewrite Hnone. }
  split.
  - intros Hne. rewrite call_myCallback. cbv zeta.
    unfold currentStateHash, currentCts. rewrite Hctx. simpl.
    fold (request_snapshot s 0). apply Z.eqb_neq in Hne. by rewrite Hne.
  - intros wealth threshold escaped Hz Hsig Hdec.
    rewrite call_myCallback. cbv zeta.
    unfold currentStateHash, currentCts. rewrite Hctx. simpl.
    fold (request_snapshot s 0). rewrite Hz, Hsig, Hdec. done.
Qed.

(** X14. A submission disturbs a pending request only through the wealth
    row the callback reads, which is the row of the context's batch id:
    after an accepted submission for any other player id, the requested
    player's own included, a callback for that request has the very
    outcome it would have had before the submission. *)
Theorem submission_elsewhere_leaves_callback env env' s playerId h requestId
    cleartexts proof :
  playerId ≠ batchId (context_of s requestId) ->
  fst (call (MyCallback requestId cleartexts proof) env'
            (submitted env playerId h s))
  = fst (call (MyCallback requestId cleartexts proof) env' s).
Proof.
  intros Hne. rewrite !call_myCallback. cbv zeta.
  unfold currentStateHash, currentCts.
  change (context_of (submitted env playerId h s) requestId)
    with (context_of s requestId).
  assert (Hw : wealth_of (submitted env playerId h s)
                         (batchId (context_of s requestId))
               = wealth_of s (batchId (context_of s requestId))).
  { unfold wealth_of, submitted, mapping_get. simpl. by rewrite lookup_insert_ne. }
  rewrite Hw. simpl. by repeat case_match.
Qed.
End Requests.

(** ** Cooldowns, batches and signals *)
Section Composition.
Context {Eng : FHE.Engine} {H : Host}.

(** X15. The submission cooldown, end to end. After a submission
    accepted at time t, the same address is refused with CooldownActive
    at every time before t + cooldownSeconds, and from that time on it
    is accepted again with any initialized handle; the clock is per
    address and per kind of action: nobody else's submission time and
    nobody's decryption-request time is touched. *)
Theorem cooldown_blocks_resubmission env env2 s playerId h playerId2 h2 :
  ~ submission_refused env s h ->
  msg_sender env2 = msg_sender env ->
  block_timestamp env + cooldownSeconds s <= UINT256_MAX ->
  let s1 := submitted env playerId h s in
  (block_timestamp env2 < block_timestamp env + cooldownSeconds s ->
   call (SubmitPlayerWealth playerId2 h2) env2 s1 = (Failed CooldownActive, s1))
  /\ (block_timestamp env + cooldownSeconds s <= block_timestamp env2 ->
      FHE.isInitialized h2 = true ->
      call (SubmitPlayerWealth playerId2 h2) env2 s1
      = (Succeeded [WealthSubmitted (msg_sender env2) playerId2 h2],
         submitted env2 playerId2 h2 s1))
  /\ lastDecryptionRequestTime s1 = lastDecryptionRequestTime s
  /\ (forall a, a ≠ msg_sender env ->
        mapping_get 0 (lastSubmissionTime s1) a
        = mapping_get 0 (lastSubmissionTime s) a).
Proof.
  intros Hok Hsame Hfit. cbv zeta. unfold submission_refused in Hok.
  apply Decidable.not_or in Hok as [Ho Hok].
  apply Decidable.not_or in Hok as [Hp Hok].
  apply Decidable.not_or in Hok as [Hpa _].
  apply not_false_iff_true in Ho, Hp. apply not_true_iff_false in Hpa.
  assert (Hlast : mapping_get 0 (lastSubmissionTime (submitted env playerId h s))
                    (msg_sender env2) = block_timestamp env).
  { unfold submitted, mapping_get. simpl. by rewrite Hsame, lookup_insert_eq. }
  split; [|split; [|split; [done|]]].
  - intros Hcd. rewrite call_submitPlayerWealth. cbv zeta. rewrite Hlast.
    change (providers (submitted env playerId h s)) with (providers s).
    change (paused (submitted env playerId h s)) with (paused s).
    change (cooldownSeconds (submitted env playerId h s)) with (cooldownSeconds s).
    rewrite Hsame, Hp, Hpa. simpl.
    destruct (Z.leb_spec (block_timestamp env + cooldownSeconds s) UINT256_MAX);
      [|lia].
    by destruct (Z.ltb_spec (block_timestamp env2)
                   (block_timestamp env + cooldownSeconds s)); [|lia].
  - intros Hcd Hi. rewrite call_submitPlayerWealth. cbv zeta. rewrite Hlast.
    change (providers (submitted env playerId h s)) with (providers s).
    change (paused (submitted env playerId h s)) with (paused s).
    change (batchOpen (submitted env playerId h s)) with (batchOpen s).
    change (cooldownSeconds (submitted env playerId h s)) with (cooldownSeconds s).
    rewrite Hsame, Hp, Hpa, Ho, Hi. simpl.
    destruct (Z.leb_spec (block_timestamp env + cooldownSeconds s) UINT256_MAX);
      [|lia].
    destruct (Z.ltb_spec (block_timestamp env2)
                (block_timestamp env + cooldownSeconds s)); [lia|done].
  - intros a Hne. unfold submitted, mapping_get. simpl.
    by rewrite lookup_insert_ne.
Qed.

Lemma openBatch_outcome env s :
  fst (call OpenBatch env s) =
    let opens id :=
      if negb (FHE.isInitialized (FHE.asEuint32 1000)) then Failed NotInitialized
      else if negb (FHE.isInitialized (FHE.asEuint32 50)) then Failed NotInitialized
      else Succeeded [BatchOpened id] in
    if negb (msg_sender env =? owner s) then Failed NotOwner
    else if paused s then Failed Paused
    else if batchOpen s then
      if currentBatchId s + 1 <=? UINT256_MAX then opens (currentBatchId s + 1)
      else Failed Panic
    else opens (currentBatchId s).
Proof. cbv zeta. exec. Qed.

(** X16. openBatch fails exactly when the caller is not the owner, the
    contract is paused, a batch is open and its id is the largest
    uint256 (the increment overflows), or the engine hands back an
    uninitialized handle for the constant 1000 or 50; a failure leaves
    the storage as it was. Otherwise it goes through, emits BatchOpened
    with the id it opens, and leaves that id current and the batch
    open. *)
Theorem openBatch_fails_exactly_when env s :
  ((exists e, call OpenBatch env s = (Failed e, s)) <-> open_refused env s)
  /\ (~ open_refused env s ->
      fst (call OpenBatch env s) = Succeeded [BatchOpened (next_batch_id s)]
      /\ currentBatchId (snd (call OpenBatch env s)) = next_batch_id s
      /\ batchOpen (snd (call OpenBatch env s)) = true).
Proof.
  assert (Hdec : open_refused env s
                 \/ fst (call OpenBatch env s)
                    = Succeeded [BatchOpened (next_batch_id s)]
                    /\ ~ open_refused env s).
  { rewrite openBatch_outcome. unfold open_refused, next_batch_id. cbv zeta.
    destruct (Z.eqb_spec (msg_sender env) (owner s)) as [Ho|Ho]; simpl; [|auto].
    destruct (paused s) eqn:Hp; [auto|].
    destruct (batchOpen s) eqn:Hb; simpl.
    - destruct (Z.leb_spec (currentBatchId s + 1) UINT256_MAX) as [Hov|Hov];
        simpl; [|auto 6].
      destruct (FHE.isInitialized (FHE.asEuint32 1000)); simpl; [|auto 6].
      destruct (FHE.isInitialized (FHE.asEuint32 50)); simpl; [|auto 6].
      right. split; [done|]. intros [|[|[[_ ?]|[|]]]]; (done || lia).
    - destruct (FHE.isInitialized (FHE.asEuint32 1000)); simpl; [|auto 6].
      destruct (FHE.isInitialized (FHE.asEuint32 50)); simpl; [|auto 6].
      right. split; [done|]. intros [|[|[[? _]|[|]]]]; done. }
  split; [split|].
  - intros [e He]. destruct Hdec as [|[Hs _]]; [done|].
    rewrite He in Hs. discriminate.
  - intros Href. destruct (call OpenBatch env s) as [[log|e] s'] eqn:Hc.
    + destruct Hdec as [_|[_ Hno]]; [|done].
      exfalso.
      assert (Hf : fst (call OpenBatch env s) = Succeeded log) by by rewrite Hc.
      apply openBatch_success in Hc as (Ho & Hp & _).
      rewrite openBatch_outcome in Hf. cbv zeta in Hf.
      rewrite Ho, Z.eqb_refl, Hp in Hf. simpl in Hf.
      destruct Href as [?|[?|[[Hb Hov]|[Hi|Hi]]]]; try congruence.
      * rewrite Hb in Hf.
        destruct (Z.leb_spec (currentBatchId s + 1) UINT256_MAX); [lia|done].
      * rewrite Hi in Hf. simpl in Hf. by repeat case_match.
      * rewrite Hi in Hf. simpl in Hf. by repeat case_match.
    + apply call_failed_inv in Hc as [-> _]. eauto.
  - intros Hok. destruct Hdec as [|[Hs _]]; [done|]. split; [done|].
    destruct (call OpenBatch env s) as [o s'] eqn:Hc. simpl in Hs. subst o.
    apply openBatch_success in Hc as (_ & _ & Hid & Hopen & _).
    simpl. by rewrite Hid.
Qed.

(** X17. Closing a batch stops new work and nothing else. After a
    closeBatch that went through, every submission and every decryption
    request fails and leaves the storage as it was, until the batch is
    opened again; but a callback for a request issued before the close
    has exactly the outcome it would have had without the close. *)
Theorem closeBatch_stops_new_work_only env s log s1 :
  call CloseBatch env s = (Succeeded log, s1) ->
  log = [BatchClosed (currentBatchId s)]
  /\ (forall env' playerId h,
        exists e, call (SubmitPlayerWealth playerId h) env' s1 = (Failed e, s1))
  /\ (forall env' playerId,
        exists e, call (RequestEscapeCheck playerId) env' s1 = (Failed e, s1))
  /\ (forall env' requestId cleartexts proof,
        fst (call (MyCallback requestId cleartexts proof) env' s1)
        = fst (call (MyCallback requestId cleartexts proof) env' s)).
Proof.
  rewrite call_closeBatch. intros Hc. repeat case_match; simplify_eq.
  split; [done|]. split; [|split].
  - intros env' playerId h. rewrite call_submitPlayerWealth. cbv zeta. simpl.
    repeat case_match; eauto.
  - intros env' playerId. rewrite call_requestEscapeCheck. cbv zeta. simpl.
    repeat case_match; eauto.
  - intros env' requestId cleartexts proof. rewrite !call_myCallback. cbv zeta.
    unfold currentStateHash, currentCts, wealth_of, context_of. simpl.
    by repeat case_match.
Qed.

(** X18. Every transaction that goes through emits exactly one signal,
    and a transaction that fails emits none (its outcome carries no
    log). *)
Theorem one_signal_per_success (c : Call) env s log s' :
  call c env s = (Succeeded log, s') -> length log = 1%nat.
Proof.
  intros Hc. destruct c.
  11: { rewrite call_myCallback in Hc. cbv zeta in Hc.
        repeat case_match; by simplify_eq. }
  all: exec.
Qed.
End Composition.

(** ** The cleartexts of an accepted callback *)
Section Cleartexts.
Context {Eng : FHE.Engine} {H : Host}.

Lemma be_word_acc_bound (w : list Byte.byte) : forall acc,
  0 <= acc ->
  0 <= fold_left (fun a x => a * 256 + Z.of_N (Byte.to_N x)) w acc
    < (acc + 1) * 256 ^ Z.of_nat (length w).
Proof.
  induction w as [|x w IH]; intros acc Hacc.
  - simpl. lia.
  - cbn [fold_left length]. pose proof (Byte.to_N_bounded x) as Hx.
    assert (Hstep : 0 <= acc * 256 + Z.of_N (Byte.to_N x)) by lia.
    specialize (IH _ Hstep).
    rewrite Nat2Z.inj_succ, Z.pow_succ_r by lia.
    assert (0 < 256 ^ Z.of_nat (length w)) by (apply Z.pow_pos_nonneg; lia).
    nia.
Qed.

Lemma be_word_uint256 (w : list Byte.byte) :
  (length w <= 32)%nat -> 0 <= be_word w <= UINT256_MAX.
Proof.
  intros Hlen. pose proof (be_word_acc_bound w 0 ltac:(lia)) as Hb.
  fold (be_word w) in Hb.
  assert (256 ^ Z.of_nat (length w) <= 256 ^ 32)
    by (apply Z.pow_le_mono_r; lia).
  unfold UINT256_MAX. change (2 ^ 256) with (256 ^ 32). lia.
Qed.

Lemma slice_Some b from to w :
  slice b from to = Some w ->
  (to <= length b)%nat /\ w = take (to - from) (drop from b).
Proof.
  unfold slice. destruct (Nat.leb_spec to (length b)); [|done].
  by intros [= <-].
Qed.

(** X19. What an accepted callback says about its cleartexts: they are
    at least 96 bytes long (anything after the 96th byte is ignored); the
    wealth and threshold of the DecryptionCompleted signal are the first
    and second 32-byte words read big-endian, both within uint256; and
    the third word is exactly 0 or 1, the signal's flag being true
    exactly when it is 1. Shorter cleartexts, or a third word that is
    not a bool, are never accepted. *)
Theorem accepted_callback_cleartexts env s requestId cleartexts proof log s' :
  call (MyCallback requestId cleartexts proof) env s = (Succeeded log, s') ->
  let wealth := be_word (take 32 cleartexts) in
  let threshold := be_word (take 32 (drop 32 cleartexts)) in
  let flag := be_word (take 32 (drop 64 cleartexts)) in
  (96 <= length cleartexts)%nat
  /\ (flag = 0 \/ flag = 1)
  /\ log = [DecryptionCompleted requestId (batchId (context_of s requestId))
              wealth threshold (flag =? 1)]
  /\ 0 <= wealth <= UINT256_MAX
  /\ 0 <= threshold <= UINT256_MAX.
Proof.
  rewrite call_myCallback. cbv zeta. intros Hc.
  destruct (processed _); [done|].
  destruct (negb (_ =? _)); [done|].
  destruct (negb (FHE.checkSignatures _ _ _ _)); [done|].
  destruct (decode_cleartexts cleartexts) as [[[w t] e]|] eqn:Hd; [|done].
  injection Hc as <- <-.
  unfold decode_cleartexts, abi_decode_uint256, abi_decode_bool in Hd.
  destruct (slice cleartexts 0 32) as [w0|] eqn:H0; [|done].
  destruct (slice cleartexts 32 64) as [w1|] eqn:H1; [|done].
  destruct (slice cleartexts 64 96) as [w2|] eqn:H2; [|done].
  simpl in Hd.
  apply slice_Some in H0 as [_ ->], H1 as [_ ->], H2 as [Hlen ->].
  simpl in Hd.
  split; [done|].
  assert (Hl : forall b : list Byte.byte, (length (take 32 b) <= 32)%nat)
    by (intros b; rewrite length_take; lia).
  destruct (Z.eqb_spec (be_word (take 32 (drop 64 cleartexts))) 0) as [Hz|Hz].
  - injection Hd as <- <- <-. rewrite Hz. simpl.
    repeat split; auto using be_word_uint256; apply be_word_uint256, Hl.
  - destruct (Z.eqb_spec (be_word (take 32 (drop 64 cleartexts))) 1) as [Ho|Ho];
      [|done].
    injection Hd as <- <- <-. rewrite Ho. simpl.
    repeat split; auto using be_word_uint256; apply be_word_uint256, Hl.
Qed.
End Cleartexts.

(** ** The contract run on the reference engine *)
Import Ref.

Lemma Ref_encodings_initialized (v : Z) :
  FHE.isInitialized (FHE.asEuint32 v) = true.
Proof.
  simpl. unfold wrap32. apply negb_true_iff, Z.eqb_neq.
  pose proof (Z.mod_pos_bound v (2 ^ 32)). lia.
Qed.

Lemma failing_operation_is_atomic_witness :
  call CloseBatch (at_ alice 1001) deployed = (Failed BatchNotOpen, deployed)
  /\ exists dirty,
       body CloseBatch (at_ alice 1001) deployed = Revert BatchNotOpen dirty
       /\ dirty = deployed.
Proof.
  assert (Hc : call CloseBatch (at_ alice 1001) deployed
               = (Failed BatchNotOpen, deployed)).
  { apply call_failed_state. vm_compute. reflexivity. }
  destruct (call_failed_inv _ _ _ _ _ Hc) as [_ [dirty Hd]].
  destruct (failing_operation_is_atomic CloseBatch (at_ alice 1001) deployed
              BatchNotOpen dirty Hd) as [Hfail Hclean].
  split; [exact Hfail|]. exists dirty. split; [exact Hd|].
  apply Hclean, Ref_encodings_initialized.
Defined.

Lemma openBatch_computes_threshold_witness :
  encryptedBaseThreshold reopened = FHE.asEuint32 1000
  /\ encryptedThresholdGrowthRate reopened = FHE.asEuint32 50
  /\ encryptedEscapeVelocityThreshold reopened =
       FHE.add (FHE.asEuint32 1000)
         (FHE.mul (FHE.asEuint32 50) (FHE.asEuint32 (currentBatchId reopened))).
Proof.
  apply (openBatch_computes_threshold (at_ alice 1002) opened [BatchOpened 1] reopened).
  apply call_outcome_run. vm_compute. reflexivity.
Defined.

Lemma close_then_open_keeps_batch_id_witness :
  batchOpen opened = true
  /\ currentBatchId closed_again = currentBatchId opened
  /\ currentBatchId (snd (call OpenBatch (at_ alice 1003) closed_again))
     = currentBatchId opened.
Proof.
  apply (close_then_open_keeps_batch_id (at_ alice 1002) (at_ alice 1003) opened
           [BatchClosed 0] closed_again).
  apply call_outcome_run. vm_compute. reflexivity.
Defined.

(** C5 fails as stated: batch 0 was opened and then closed, and the next
    openBatch goes through (it emits BatchOpened 0) without moving the
    batch id past 0. *)
Lemma reopen_after_close_same_id :
  currentBatchId opened = 0 /\ batchOpen opened = true
  /\ fst (call CloseBatch (at_ alice 1002) opened) = Succeeded [BatchClosed 0]
  /\ batchOpen closed_again = false
  /\ fst (call OpenBatch (at_ alice 1003) closed_again) = Succeeded [BatchOpened 0]
  /\ currentBatchId (snd (call OpenBatch (at_ alice 1003) closed_again)) = 0.
Proof. vm_compute. repeat split. Qed.

Lemma reopen_increments_and_close_needs_open_witness :
  (currentBatchId reopened = currentBatchId opened + 1
   /\ encryptedEscapeVelocityThreshold reopened =
        FHE.add (FHE.asEuint32 1000)
          (FHE.mul (FHE.asEuint32 50) (FHE.asEuint32 (currentBatchId reopened))))
  /\ call CloseBatch (at_ alice 1001) deployed = (Failed BatchNotOpen, deployed).
Proof.
  destruct (@reopen_increments_and_close_needs_open fhe evm) as [Hopen Hclose].
  split.
  - apply (Hopen (at_ alice 1001) (at_ alice 1002) deployed [BatchOpened 0] opened
             [BatchOpened 1] reopened);
      apply call_outcome_run; vm_compute; reflexivity.
  - destruct (Hclose (at_ alice 1001) deployed) as (_ & _ & Hnot_open).
    + vm_compute. reflexivity.
    + apply Hnot_open; vm_compute; reflexivity.
Defined.

(** C6 fails as stated: no batch is open, and closeBatch fails with
    NotOwner for a caller who is not the owner, and with Paused for the
    owner while the contract is paused, not with BatchNotOpen. *)
Lemma close_when_closed_other_errors :
  batchOpen deployed = false
  /\ call CloseBatch (at_ carol 1001) deployed = (Failed NotOwner, deployed)
  /\ batchOpen paused_fresh = false
  /\ call CloseBatch (at_ alice 1002) paused_fresh = (Failed Paused, paused_fresh).
Proof.
  repeat split; try apply call_failed_state; vm_compute; reflexivity.
Qed.

Lemma submitPlayerWealth_fails_exactly_when_witness :
  call (SubmitPlayerWealth 7 handle_100) (at_ alice 1002) opened
  = (Succeeded [WealthSubmitted alice 7 handle_100],
     submitted (at_ alice 1002) 7 handle_100 opened)
  /\ wealth_of (submitted (at_ alice 1002) 7 handle_100 opened) 7 = handle_100.
Proof.
  destruct (submitPlayerWealth_fails_exactly_when (at_ alice 1002) opened 7 handle_100)
    as (_ & Hok & Hw & _).
  - vm_compute. discriminate.
  - split; [|exact Hw]. apply Hok.
    unfold submission_refused. vm_compute. intros [|[|[|[|]]]]; discriminate.
Defined.

Lemma callback_accepted_at_most_once_witness :
  call (MyCallback 0 cleartexts_100 cleartexts_100) (at_ bob 1050)
       (run later_traffic answered_0)
  = (Failed ReplayAttempt, run later_traffic answered_0).
Proof.
  destruct (callback_accepted_at_most_once (at_ carol 1004) requested_0 0
              cleartexts_100 cleartexts_100
              [DecryptionCompleted 0 0 100 1000 false] answered_0)
    as (_ & _ & Hreplay).
  - apply call_outcome_run. vm_compute. reflexivity.
  - apply Hreplay. unfold later_traffic. cbn [never_reallotted].
    repeat split; intros cts; vm_compute; discriminate.
Defined.

Lemma digest_mismatch_rejected_witness :
  call (MyCallback 0 cleartexts_100 cleartexts_100) (at_ carol 1050) overwritten_0
  = (Failed StateMismatch, overwritten_0)
  /\ processed (context_of
       (snd (call (MyCallback 0 cleartexts_100 cleartexts_100) (at_ carol 1050)
                  overwritten_0)) 0) = false.
Proof.
  apply (digest_mismatch_rejected (at_ carol 1050) overwritten_0 0
           cleartexts_100 cleartexts_100).
  - vm_compute. reflexivity.
  - vm_compute. discriminate.
Defined.

(** On a context already processed the processed check comes first:
    request 0 was answered and player 0 was then resubmitted, so the
    recomputed digest differs from the stored stateHash (compared as
    booleans below), and a further callback fails with ReplayAttempt. *)
Lemma digest_mismatch_after_answer_is_replay :
  (currentStateHash answered_0_resubmitted 0
    =? stateHash (context_of answered_0_resubmitted 0)) = false
  /\ FHE.checkSignatures (engine answered_0_resubmitted) 0
       cleartexts_100 cleartexts_100 = true
  /\ call (MyCallback 0 cleartexts_100 cleartexts_100) (at_ carol 1050)
          answered_0_resubmitted
     = (Failed ReplayAttempt, answered_0_resubmitted).
Proof.
  repeat split; try apply call_failed_state; vm_compute; reflexivity.
Qed.

Lemma pause_gates_only_guarded_calls_witness :
  call OpenBatch (at_ alice 1002) paused_fresh
  = (Failed (paused_error OpenBatch (at_ alice 1002) paused_fresh), paused_fresh).
Proof.
  apply (pause_gates_only_guarded_calls OpenBatch (at_ alice 1002) paused_fresh).
  vm_compute. reflexivity.
Defined.

(** C4 fails as stated: with the pause flag set, the owner still
    transfers ownership, adds a provider and changes the cooldown, and
    anyone still delivers a decryption callback; each call goes through
    and changes the storage. *)
Lemma paused_contract_still_mutates :
  paused paused_fresh = true
  /\ fst (call (TransferOwnership bob) (at_ alice 1002) paused_fresh)
     = Succeeded [OwnershipTransferred alice bob]
  /\ owner paused_fresh = alice
  /\ owner (snd (call (TransferOwnership bob) (at_ alice 1002) paused_fresh)) = bob
  /\ fst (call (AddProvider bob) (at_ alice 1002) paused_fresh)
     = Succeeded [ProviderAdded bob]
  /\ fst (call (SetCooldownSeconds 60) (at_ alice 1002) paused_fresh)
     = Succeeded [CooldownSecondsUpdated 30 60]
  /\ paused paused_pending = true
  /\ processed (context_of paused_pending 0) = false
  /\ call (MyCallback 0 cleartexts_100 cleartexts_100) (at_ carol 1006) paused_pending
     = (Succeeded [DecryptionCompleted 0 0 100 1000 false],
        mark_processed 0 paused_pending)
  /\ processed (context_of (mark_processed 0 paused_pending) 0) = true.
Proof.
  repeat split; try apply callback_success_state; vm_compute; reflexivity.
Qed.

Lemma callback_ignores_caller_witness :
  let r1 := call (MyCallback 0 cleartexts_100 cleartexts_100) (at_ carol 1004)
                 requested_0 in
  let r2 := call (MyCallback 0 cleartexts_100 cleartexts_100) (at_ bob 2000)
                 paused_pending in
  fst r1 = fst r2
  /\ snd r1 = (if is_success (fst r1) then mark_processed 0 requested_0
               else requested_0)
  /\ snd r2 = (if is_success (fst r2) then mark_processed 0 paused_pending
               else paused_pending).
Proof.
  apply (callback_ignores_caller (at_ carol 1004) (at_ bob 2000)
           requested_0 paused_pending 0 cleartexts_100 cleartexts_100).
  vm_compute. reflexivity.
Defined.

(** C1, the code at the failing input. Request 0 snapshotted the wealth
    of player 7 in batch 0. The callback recomputes its snapshot from the
    row of the batch id, 0, which holds no handle, and not from the row
    of player 7; the honest answer (valid proof, nothing resubmitted) is
    therefore rejected with StateMismatch. Where row 0 does hold the same
    handle as player 7 had at the request, the callback goes through even
    though player 7 was resubmitted in between: the stale decryption of
    100 is accepted while the stored wealth is that of 1500. *)
Theorem callback_recomputes_from_batch_row :
  stateHash (context_of requested_7 0)
    = _hashCiphertexts (request_snapshot requested_7 7)
  /\ batchId (context_of requested_7 0) = 0
  /\ wealth_of requested_7 7 = handle_100
  /\ wealth_of requested_7 0 = 0
  /\ currentCts requested_7 0 = request_snapshot requested_7 0
  /\ (currentStateHash requested_7 0 =? stateHash (context_of requested_7 0)) = false
  /\ FHE.checkSignatures (engine requested_7) 0 cleartexts_100 cleartexts_100 = true
  /\ call (MyCallback 0 cleartexts_100 cleartexts_100) (at_ carol 1004) requested_7
     = (Failed StateMismatch, requested_7)
  /\ wealth_of stale_7 7 = handle_1500
  /\ wealth_of stale_7 0 = handle_100
  /\ call (MyCallback 0 cleartexts_100 cleartexts_100) (at_ carol 1050) stale_7
     = (Succeeded [DecryptionCompleted 0 0 100 1000 false],
        mark_processed 0 stale_7).
Proof.
  repeat split;
    try apply call_failed_state; try apply callback_success_state;
    vm_compute; reflexivity.
Qed.

(** ** Further runs on the reference engine: witnesses *)
Import Scenes.

Lemma only_owner_passes_onlyOwner_witness :
  call Pause (at_ carol 1001) deployed = (Failed NotOwner, deployed).
Proof.
  apply (only_owner_passes_onlyOwner Pause (at_ carol 1001) deployed).
  - reflexivity.
  - vm_compute. discriminate.
Defined.

Lemma non_owner_cannot_touch_admin_state_witness :
  fst (call (RequestEscapeCheck 0) (at_ carol 1003) submitted_0)
  = Succeeded [DecryptionRequested 0 0]
  /\ admin_state (snd (call (RequestEscapeCheck 0) (at_ carol 1003) submitted_0))
     = admin_state submitted_0.
Proof.
  split; [vm_compute; reflexivity|].
  apply (non_owner_cannot_touch_admin_state (RequestEscapeCheck 0)
           (at_ carol 1003) submitted_0).
  vm_compute. discriminate.
Defined.

Lemma transferOwnership_hands_over_witness :
  call (TransferOwnership bob) (at_ alice 1001) deployed
  = (Succeeded [OwnershipTransferred (owner deployed) bob], set_owner bob deployed)
  /\ call OpenBatch (at_ alice 1002) (set_owner bob deployed)
     = (Failed NotOwner, set_owner bob deployed).
Proof.
  destruct (transferOwnership_hands_over (at_ alice 1001) deployed bob)
    as (Hcall & Hlock & _).
  - vm_compute. reflexivity.
  - split; [exact Hcall|].
    apply (Hlock ltac:(vm_compute; discriminate) OpenBatch (at_ alice 1002)).
    + reflexivity.
    + vm_compute. reflexivity.
Defined.

Lemma provider_add_remove_witness :
  fst (call (AddProvider bob) (at_ alice 1001) deployed)
  = Succeeded [ProviderAdded bob]
  /\ is_provider (snd (call (AddProvider bob) (at_ alice 1001) deployed)) bob
     = (if decide (bob = bob) then true else is_provider deployed bob).
Proof.
  destruct (provider_add_remove (at_ alice 1001) deployed bob)
    as (Hadd & _ & Hset & _).
  - vm_compute. reflexivity.
  - split; [exact Hadd|]. apply Hset.
Defined.

Lemma removed_provider_cannot_submit_witness :
  owner (snd (call (RemoveProvider alice) (at_ alice 1001) deployed))
  = owner deployed
  /\ call (SubmitPlayerWealth 7 handle_100) (at_ alice 1002)
          (snd (call (RemoveProvider alice) (at_ alice 1001) deployed))
     = (Failed NotProvider,
        snd (call (RemoveProvider alice) (at_ alice 1001) deployed)).
Proof.
  destruct (removed_provider_cannot_submit (at_ alice 1001) deployed alice)
    as (Howner & Hrefused).
  - vm_compute. reflexivity.
  - split; [exact Howner|]. by apply Hrefused.
Defined.

Lemma pause_unpause_asymmetry_witness :
  call Unpause (at_ alice 1001) deployed
  = (Succeeded [ContractUnpaused], set_paused false deployed)
  /\ run [(Pause, at_ alice 1001); (Unpause, at_ alice 1002)] deployed = deployed.
Proof.
  destruct (pause_unpause_asymmetry (at_ alice 1001) (at_ alice 1002) deployed)
    as (_ & Hunpause & Hround).
  - vm_compute. reflexivity.
  - vm_compute. reflexivity.
  - split; [exact Hunpause|]. apply Hround. vm_compute. reflexivity.
Defined.

Lemma requestEscapeCheck_fails_exactly_when_witness :
  call (RequestEscapeCheck 0) (at_ carol 1003) submitted_0
  = (Succeeded [DecryptionRequested (request_id_of submitted_0 0)
                  (currentBatchId submitted_0)],
     requested (at_ carol 1003) 0 submitted_0).
Proof.
  destruct (requestEscapeCheck_fails_exactly_when (at_ carol 1003) submitted_0 0)
    as (_ & Hok & _).
  - vm_compute. discriminate.
  - apply Hok. unfold request_refused. vm_compute.
    intros [|[|[|[|]]]]; discriminate.
Defined.

Lemma request_then_callback_round_trip_witness :
  call (MyCallback (request_id_of submitted_0 0) cleartexts_100 cleartexts_100)
       (at_ bob 1004) (run [request_0] submitted_0)
  = (Succeeded [DecryptionCompleted (request_id_of submitted_0 0)
                  (currentBatchId submitted_0) 100 1000 false],
     mark_processed (request_id_of submitted_0 0) (run [request_0] submitted_0)).
Proof.
  destruct (request_then_callback_round_trip (at_ carol 1003) (at_ bob 1004)
              submitted_0 0 [DecryptionRequested 0 0] (run [request_0] submitted_0)
              cleartexts_100 cleartexts_100 100 1000 false)
    as (_ & Hcb & _).
  - apply call_outcome_run. vm_compute. reflexivity.
  - vm_compute. reflexivity.
  - vm_compute. reflexivity.
  - vm_compute. reflexivity.
  - exact Hcb.
Defined.

Lemma callback_for_unknown_request_witness :
  call (MyCallback 5 cleartexts_100 cleartexts_100) (at_ carol 1001) deployed
  = (Failed StateMismatch, deployed).
Proof.
  destruct (callback_for_unknown_request (at_ carol 1001) deployed 5
              cleartexts_100 cleartexts_100) as (Hrefused & _).
  - vm_compute. reflexivity.
  - apply Hrefused. vm_compute. discriminate.
Defined.

Lemma submission_elsewhere_leaves_callback_witness :
  fst (call (MyCallback 0 cleartexts_100 cleartexts_100) (at_ carol 1050)
            (submitted (at_ alice 1040) 7 handle_1500 requested_7))
  = fst (call (MyCallback 0 cleartexts_100 cleartexts_100) (at_ carol 1050)
              requested_7).
Proof.
  apply (submission_elsewhere_leaves_callback (at_ alice 1040) (at_ carol 1050)
           requested_7 7 handle_1500 0 cleartexts_100 cleartexts_100).
  vm_compute. discriminate.
Defined.

Lemma cooldown_blocks_resubmission_witness :
  call (SubmitPlayerWealth 8 handle_1500) (at_ alice 1031)
       (submitted (at_ alice 1002) 7 handle_100 opened)
  = (Failed CooldownActive, submitted (at_ alice 1002) 7 handle_100 opened)
  /\ call (SubmitPlayerWealth 8 handle_1500) (at_ alice 1032)
          (submitted (at_ alice 1002) 7 handle_100 opened)
     = (Succeeded [WealthSubmitted alice 8 handle_1500],
        submitted (at_ alice 1032) 8 handle_1500
          (submitted (at_ alice 1002) 7 handle_100 opened)).
Proof.
  assert (Hok : ~ submission_refused (at_ alice 1002) opened handle_100).
  { unfold submission_refused. vm_compute. intros [|[|[|[|]]]]; discriminate. }
  assert (Hfit : block_timestamp (at_ alice 1002) + cooldownSeconds opened
                 <= UINT256_MAX) by (vm_compute; discriminate).
  split.
  - destruct (cooldown_blocks_resubmission (at_ alice 1002) (at_ alice 1031) opened
                7 handle_100 8 handle_1500 Hok eq_refl Hfit) as (Hblocked & _).
    apply Hblocked. vm_compute. reflexivity.
  - destruct (cooldown_blocks_resubmission (at_ alice 1002) (at_ alice 1032) opened
                7 handle_100 8 handle_1500 Hok eq_refl Hfit) as (_ & Hagain & _).
    apply Hagain; vm_compute; [discriminate|reflexivity].
Defined.

Lemma closeBatch_stops_new_work_only_witness :
  (exists e, call (SubmitPlayerWealth 7 handle_100) (at_ alice 1040) closed_again
             = (Failed e, closed_again))
  /\ fst (call (MyCallback 0 cleartexts_100 cleartexts_100) (at_ carol 1050)
               closed_again)
     = fst (call (MyCallback 0 cleartexts_100 cleartexts_100) (at_ carol 1050)
                 opened).
Proof.
  destruct (closeBatch_stops_new_work_only (at_ alice 1002) opened
              [BatchClosed 0] closed_again) as (_ & Hsubmit & _ & Hcallback).
  - apply call_outcome_run. vm_compute. reflexivity.
  - split; [apply Hsubmit | apply Hcallback].
Defined.

Lemma one_signal_per_success_witness :
  length [BatchOpened 0] = 1%nat.
Proof.
  apply (one_signal_per_success OpenBatch (at_ alice 1001) deployed
           [BatchOpened 0] opened).
  apply call_outcome_run. vm_compute. reflexivity.
Defined.

Lemma accepted_callback_cleartexts_witness :
  let wealth := be_word (take 32 cleartexts_100) in
  let threshold := be_word (take 32 (drop 32 cleartexts_100)) in
  let flag := be_word (take 32 (drop 64 cleartexts_100)) in
  (96 <= length cleartexts_100)%nat
  /\ (flag = 0 \/ flag = 1)
  /\ [DecryptionCompleted 0 0 100 1000 false]
     = [DecryptionCompleted 0 (batchId (context_of requested_0 0))
          wealth threshold (flag =? 1)]
  /\ 0 <= wealth <= UINT256_MAX
  /\ 0 <= threshold <= UINT256_MAX.
Proof.
  apply (accepted_callback_cleartexts (at_ carol 1004) requested_0 0
           cleartexts_100 cleartexts_100
           [DecryptionCompleted 0 0 100 1000 false] answered_0).
  apply call_outcome_run. vm_compute. reflexivity.
Defined.
